(** * PDF_Compressor: the target-size search, the invokers and the batch runner

    A shallow embedding of [pdf_compressor.py].  The program is a thin
    driver around two opaque collaborators: the Ghostscript executable (run
    through [subprocess.run]) and the PyPDF page-rewrite library.  Both are
    parameters of the development (record [environment]); everything the
    Python code itself decides -- which command is built, which path is
    written, what is renamed or unlinked, what is returned or raised -- is
    modelled as executable functions over an explicit world (file system
    and invocation log).

    Modelling conventions:
    - the file system is a finite map from paths to regular files; the
      directories are implicit, so [mkdir(parents=True, exist_ok=True)] is
      not a step of the model, the exceptions it raises when a directory
      cannot be made are outside it, and [is_file()] is [exists()]; the
      statements are about calls that return, or about the files a call
      leaves;
    - logging is not modelled;
    - a Python exception that escapes a function is a value [Raised e]. *)

From Stdlib Require Import ZArith QArith Qabs String Ascii List Bool Lia.
From stdpp Require Import base option countable gmap strings list pretty.
Import ListNotations.

Local Open Scope string_scope.
Local Open Scope list_scope.
Local Open Scope Z_scope.

(** ** Paths ([pathlib.Path]) *)

(** A path is its directory (the components of [path.parent]) and its final
    component ([path.name]). *)
Record path : Type := Path { parent : list string; name : string }.

#[global] Instance path_eq_dec : EqDecision path.
Proof. solve_decision. Defined.

#[global] Instance path_countable : Countable path.
Proof.
  refine (inj_countable' (fun p => (parent p, name p))
                         (fun dn => Path (fst dn) (snd dn)) _).
  intros [d n]; reflexivity.
Defined.

(** [dir / n] *)
Definition joinpath (dir : list string) (n : string) : path := Path dir n.

(** [str(path)] *)
Definition path_str (p : path) : string :=
  String.concat "/" (parent p ++ [name p]).

(** [s.rfind('.')], [None] standing for Python's [-1]. *)
Fixpoint rfind_dot (s : string) : option nat :=
  match s with
  | EmptyString => None
  | String c s' =>
      match rfind_dot s' with
      | Some i => Some (S i)
      | None => if Ascii.eqb c "."%char then Some 0%nat else None
      end
  end.

(** [0 < i < len(name) - 1]: the dot is neither the first nor the last
    character of the name. *)
Definition splits_at (n : string) (i : nat) : bool :=
  (0 <? i)%nat && (i <? String.length n - 1)%nat.

(** [PurePath.suffix] *)
Definition suffix (p : path) : string :=
  match rfind_dot (name p) with
  | Some i =>
      if splits_at (name p) i
      then substring i (String.length (name p) - i) (name p)
      else ""
  | None => ""
  end.

(** [PurePath.stem] *)
Definition stem (p : path) : string :=
  match rfind_dot (name p) with
  | Some i => if splits_at (name p) i then substring 0 i (name p) else name p
  | None => name p
  end.

(** [str.lower()] on ASCII text. *)
Definition lower_ascii (c : ascii) : ascii :=
  let n := nat_of_ascii c in
  if (65 <=? n)%nat && (n <=? 90)%nat then ascii_of_nat (n + 32) else c.

Fixpoint lower (s : string) : string :=
  match s with
  | EmptyString => EmptyString
  | String c s' => String (lower_ascii c) (lower s')
  end.

(** ** Files and the file system *)

(** A regular file: its size in bytes ([stat().st_size]) and whether the
    writer finished it ([complete = false] for a partial file left behind by
    a writer that failed half-way). *)
Record file : Type := File { fsize : N; complete : bool }.

#[global] Instance file_eq_dec : EqDecision file.
Proof. solve_decision. Defined.

(** What one run of an external writer did to the path it was told to
    write. *)
Inductive effect : Type :=
| Untouched
| Wrote (f : file).

(** One entry of the invocation log. *)
Inductive call : Type :=
| GsRun (cmd : list string)
| PdfRewrite (input output : path) (compress_streams : bool).

#[global] Instance call_eq_dec : EqDecision call.
Proof. solve_decision. Defined.

Record world : Type := World { fs : gmap path file; calls : list call }.

Definition apply_effect (e : effect) (p : path) (m : gmap path file)
  : gmap path file :=
  match e with
  | Untouched => m
  | Wrote f => <[p := f]> m
  end.

(** [path.exists()] *)
Definition exists_ (w : world) (p : path) : bool := bool_decide (is_Some (fs w !! p)).

(** [get_file_size]: [stat] raises [FileNotFoundError] ([None]) on a missing
    path. *)
Definition get_file_size (w : world) (p : path) : option N :=
  fsize <$> fs w !! p.

(** [path.unlink(missing_ok=True)] *)
Definition unlink (w : world) (p : path) : world :=
  World (delete p (fs w)) (calls w).

(** ** The environment: platform, engine and library *)

(** [subprocess.run([exe, '--version'], capture_output=True, check=True)] *)
Inductive probe_outcome : Type :=
| ProbeOk
| ProbeMissing      (* CalledProcessError or FileNotFoundError *)
| ProbeRaised.      (* any other exception *)

(** [subprocess.run(cmd, capture_output=True, text=True)] *)
Inductive run_outcome : Type :=
| RunExit (returncode : Z) (e : effect)
| RunMissing                   (* FileNotFoundError: no such executable *)
| RunRaised (e : effect).      (* any other exception *)

(** The body of [compress_with_pypdf]'s [try] block. *)
Inductive rewrite_outcome : Type :=
| RewriteFailedEarly               (* raised before the output was opened *)
| RewriteFailedLate (partial : file) (* raised after [open(output, 'wb')] *)
| RewriteDone (f : file).

Record environment : Type := Environment {
  is_windows : bool;                    (* platform.system() == 'Windows' *)
  probe : string -> probe_outcome;
  (** the engine, which may depend on what was run before and on the files *)
  gs : list call -> gmap path file -> list string -> run_outcome;
  pdf_library : list call -> gmap path file -> path -> bool -> rewrite_outcome;
  PYPDF_AVAILABLE : bool
}.

(** ** The compressor object *)

Inductive level : Type := low | medium | high | maximum.

(** [COMPRESSION_LEVELS[level]['remove_duplicates']] *)
Definition remove_duplicates (l : level) : bool :=
  match l with
  | low => false
  | medium | high | maximum => true
  end.

(** [COMPRESSION_LEVELS[level]['image_quality']] and [['image_dpi']] *)
Definition image_quality (l : level) : N :=
  match l with low => 85 | medium => 75 | high => 60 | maximum => 45 end%N.

Definition image_dpi (l : level) : N :=
  match l with low => 150 | medium => 120 | high => 100 | maximum => 72 end%N.

Record compressor : Type := PDFCompressor {
  compression_level : level;
  target_size_bytes : option Z
}.

(** Python exceptions that can escape the modelled functions. *)
Inductive exn : Type :=
| FileNotFoundError
| ZeroDivisionError
| ValueError
| OverflowError.

Inductive result (A : Type) : Type :=
| Returned (a : A)
| Raised (e : exn).
Arguments Returned {A} a.
Arguments Raised {A} e.

Section Compressor.

Context (E : environment).

(** The executable name chosen at the head of both invokers; [None] when a
    version probe raised something the inner handlers do not catch, which
    the invoker's outer [except Exception] turns into [False]. *)
Definition gs_executable : option string :=
  if is_windows E then
    match probe E "gswin64c" with
    | ProbeOk => Some "gswin64c"
    | ProbeRaised => None
    | ProbeMissing =>
        match probe E "gswin32c" with
        | ProbeOk => Some "gswin32c"
        | ProbeRaised => None
        | ProbeMissing => Some "gs"
        end
    end
  else Some "gs".

(** [gs_settings] of [compress_with_ghostscript] *)
Definition gs_settings (l : level) : string :=
  match l with
  | low => "/ebook"
  | medium => "/printer"
  | high => "/prepress"
  | maximum => "/screen"
  end.

Definition simple_cmd (exe gs_quality : string) (output_path input_path : path)
  : list string :=
  [ exe;
    "-sDEVICE=pdfwrite";
    "-dCompatibilityLevel=1.4";
    "-dPDFSETTINGS=" +:+ gs_quality;
    "-dNOPAUSE";
    "-dQUIET";
    "-dBATCH";
    "-sOutputFile=" +:+ path_str output_path;
    path_str input_path ].

Definition advanced_cmd (exe preset : string) (image_dpi jpeg_quality : N)
    (output_path input_path : path) : list string :=
  [ exe;
    "-sDEVICE=pdfwrite";
    "-dCompatibilityLevel=1.4";
    "-dPDFSETTINGS=" +:+ preset;
    "-dNOPAUSE";
    "-dQUIET";
    "-dBATCH";
    "-dColorImageResolution=" +:+ pretty image_dpi;
    "-dGrayImageResolution=" +:+ pretty image_dpi;
    "-dMonoImageResolution=" +:+ pretty (image_dpi * 2)%N;
    "-dColorImageDownsampleType=/Bicubic";
    "-dGrayImageDownsampleType=/Bicubic";
    "-dJPEGQ=" +:+ pretty jpeg_quality;
    "-dOptimize=true";
    "-dEmbedAllFonts=true";
    "-dSubsetFonts=true";
    "-sOutputFile=" +:+ path_str output_path;
    path_str input_path ].

(** [subprocess.run(cmd, ...)] followed by the test of the return code and
    the two [except] clauses: the part shared by both invokers.  The run is
    logged, the engine's effect lands on [output_path], and nothing is
    removed whatever the outcome. *)
Definition run_engine (w : world) (cmd : list string) (output_path : path)
  : bool * world :=
  let logged := calls w ++ [GsRun cmd] in
  match gs E (calls w) (fs w) cmd with
  | RunExit rc e =>
      (rc =? 0, World (apply_effect e output_path (fs w)) logged)
  | RunMissing => (false, World (fs w) logged)
  | RunRaised e => (false, World (apply_effect e output_path (fs w)) logged)
  end.

Definition compress_with_ghostscript (self : compressor) (w : world)
    (input_path output_path : path) (override_quality : option string)
  : bool * world :=
  let gs_quality :=
    match override_quality with
    | Some q => q
    | None => gs_settings (compression_level self)
    end in
  match gs_executable with
  | None => (false, w)
  | Some exe => run_engine w (simple_cmd exe gs_quality output_path input_path)
                  output_path
  end.

Definition compress_with_ghostscript_advanced (w : world)
    (input_path output_path : path) (preset : string)
    (image_dpi jpeg_quality : N) : bool * world :=
  match gs_executable with
  | None => (false, w)
  | Some exe =>
      run_engine w
        (advanced_cmd exe preset image_dpi jpeg_quality output_path input_path)
        output_path
  end.

Definition compress_with_pypdf (self : compressor) (w : world)
    (input_path output_path : path) : bool * world :=
  let compress_streams := remove_duplicates (compression_level self) in
  let logged := calls w ++ [PdfRewrite input_path output_path compress_streams] in
  match pdf_library E (calls w) (fs w) input_path compress_streams with
  | RewriteFailedEarly => (false, World (fs w) logged)
  | RewriteFailedLate partial =>
      (false, World (<[output_path := partial]> (fs w)) logged)
  | RewriteDone f => (true, World (<[output_path := f]> (fs w)) logged)
  end.

(** [src.rename(dst)]: [None] when it raises.  A missing source raises
    [FileNotFoundError]; on POSIX an existing destination file is replaced
    silently, on Windows [os.rename] raises [FileExistsError] whenever the
    destination exists. *)
Definition rename (w : world) (src dst : path) : option world :=
  match fs w !! src with
  | None => None
  | Some f =>
      if is_windows E && exists_ w dst then None
      else Some (World (<[dst := f]> (delete src (fs w))) (calls w))
  end.

(** The table of [compress_file]: (preset, description, dpi, jpeg quality). *)
Definition configs : list (string * string * N * N) :=
  [ ("/prepress", "high quality", 300, 90);
    ("/printer", "good quality", 200, 80);
    ("/printer", "balanced", 150, 75);
    ("/ebook", "compact", 150, 70);
    ("/screen", "minimal", 100, 60) ]%N.

(** [output_path.parent / f"temp_{output_path.name}"] *)
Definition temp_output_of (output_path : path) : path :=
  joinpath (parent output_path) ("temp_" +:+ name output_path).

(** The [for preset, desc, dpi, jpeg_q in configs] loop.  The result is the
    value of [success] when the loop is left.  The [except Exception] clause
    of the loop body is reached from [get_file_size] and [rename] only: the
    invoker catches everything itself and returns [False]. *)
Fixpoint search_configs (cs : list (string * string * N * N)) (w : world)
    (input_path output_path : path) (target : Z) : bool * world :=
  match cs with
  | [] => (false, w)
  | (preset, desc, dpi, jpeg_q) :: rest =>
      let temp_output := temp_output_of output_path in
      let '(ok, w1) :=
        compress_with_ghostscript_advanced w input_path temp_output
          preset dpi jpeg_q in
      if ok then
        if exists_ w1 temp_output then
          match get_file_size w1 temp_output with
          | Some size =>
              if Z.of_N size <=? target then
                match rename w1 temp_output output_path with
                | Some w2 => (true, w2)                       (* break *)
                | None =>                                     (* except *)
                    search_configs rest (unlink w1 temp_output)
                      input_path output_path target
                end
              else
                search_configs rest (unlink w1 temp_output)
                  input_path output_path target
          | None =>                                           (* except *)
              search_configs rest (unlink w1 temp_output)
                input_path output_path target
          end
        else search_configs rest w1 input_path output_path target
      else search_configs rest w1 input_path output_path target
  end.

(** The [if self.target_size_bytes is not None] branch: the loop, then the
    fallback with [override_quality='/screen'] when [success] is still
    false. *)
Definition target_size_search (self : compressor) (w : world)
    (input_path output_path : path) (target : Z) : bool * world :=
  let '(success, w1) :=
    search_configs configs w input_path output_path target in
  if success then (true, w1)
  else compress_with_ghostscript self w1 input_path output_path (Some "/screen").

(** The [else] branch: Ghostscript first, PyPDF as the [elif]. *)
Definition single_shot (self : compressor) (w : world)
    (input_path output_path : path) : bool * world :=
  let '(ok, w1) := compress_with_ghostscript self w input_path output_path None in
  if ok then (true, w1)
  else if PYPDF_AVAILABLE E
       then compress_with_pypdf self w1 input_path output_path
       else (false, w1).

(** [input_path.parent / f"{input_path.stem}_compressed.pdf"] *)
Definition default_output (input_path : path) : path :=
  joinpath (parent input_path) (stem input_path +:+ "_compressed.pdf").

Definition compress_file (self : compressor) (w : world)
    (input_path : path) (output_path : option path)
  : result (bool * path) * world :=
  if negb (exists_ w input_path) then (Returned (false, input_path), w)
  else if negb (String.eqb (lower (suffix input_path)) ".pdf")
  then (Returned (false, input_path), w)
  else
    let output_path :=
      match output_path with
      | None => default_output input_path
      | Some p => p
      end in
    match get_file_size w input_path with
    | None => (Raised FileNotFoundError, w)
    | Some original_size =>
        let '(success, w1) :=
          match target_size_bytes self with
          | Some target =>
              target_size_search self w input_path output_path target
          | None => single_shot self w input_path output_path
          end in
        if success && exists_ w1 output_path then
          match get_file_size w1 output_path with
          | None => (Raised FileNotFoundError, w1)
          | Some compressed_size =>
              (* (1 - compressed_size / original_size) * 100 *)
              if (original_size =? 0)%N then (Raised ZeroDivisionError, w1)
              else (Returned (true, output_path), w1)
          end
        else (Returned (false, input_path), w1)
    end.

(** [compress_batch]: the results in input order; an exception raised by
    [compress_file] is not caught here and ends the loop. *)
Fixpoint compress_batch (self : compressor) (w : world)
    (input_paths : list path) (output_dir : option (list string))
  : result (list (bool * path * path)) * world :=
  match input_paths with
  | [] => (Returned [], w)
  | input_path :: rest =>
      let output_path :=
        match output_dir with
        | Some d => Some (joinpath d (stem input_path +:+ "_compressed.pdf"))
        | None => None
        end in
      match compress_file self w input_path output_path with
      | (Raised e, w1) => (Raised e, w1)
      | (Returned (success, final_output_path), w1) =>
          match compress_batch self w1 rest output_dir with
          | (Raised e, w2) => (Raised e, w2)
          | (Returned results, w2) =>
              (Returned ((success, input_path, final_output_path) :: results), w2)
          end
      end
  end.

End Compressor.

(** ** The command line *)

(** The value of [--target-size-mb] ([type=float]).  A finite binary64
    number is the rational it denotes; [1024] is a power of two, so the
    product of a finite float with it is exact unless it leaves the binary64
    range, where it becomes an infinity. *)
Inductive pyfloat : Type :=
| FNan
| FInf (negative : bool)
| FFinite (q : Q).

(** [bool(x)]: only the zeros are false. *)
Definition float_truthy (x : pyfloat) : bool :=
  match x with
  | FFinite q => negb (Qnum q =? 0)
  | FNan | FInf _ => true
  end.

(** [x * 1024] *)
Definition float_mul_1024 (x : pyfloat) : pyfloat :=
  match x with
  | FFinite q =>
      let r := (q * 1024)%Q in
      if Qle_bool (inject_Z (2 ^ 1024)) (Qabs r)
      then FInf (Qnum q <? 0)
      else FFinite r
  | FNan | FInf _ => x
  end.

(** [int(x)]: truncation toward zero; [ValueError] on a NaN,
    [OverflowError] on an infinity. *)
Definition float_to_int (x : pyfloat) : result Z :=
  match x with
  | FNan => Raised ValueError
  | FInf _ => Raised OverflowError
  | FFinite q => Returned (Z.quot (Qnum q) (Z.pos (Qden q)))
  end.

Record args : Type := Args {
  input : list path;      (* the list [files] built by [expand_file_patterns] *)
  output : option path;
  output_dir : option (list string);
  quality : level;
  target_size_mb : option pyfloat;
  verbose : bool
}.

(** [int(args.target_size_mb * 1024 * 1024) if getattr(args,
    'target_size_mb', None) else None] *)
Definition target_bytes_of (mb : option pyfloat) : result (option Z) :=
  match mb with
  | None => Returned None
  | Some x =>
      if float_truthy x then
        match float_to_int (float_mul_1024 (float_mul_1024 x)) with
        | Returned n => Returned (Some n)
        | Raised e => Raised e
        end
      else Returned None
  end.

(** The filter that ends [expand_file_patterns] (glob expansion itself is
    not modelled: the argument is the list [files]); [None] is
    [sys.exit(1)]. *)
Definition expand_file_patterns (w : world) (files : list path)
  : option (list path) :=
  let pdf_files :=
    List.filter
      (fun f => String.eqb (lower (suffix f)) ".pdf" && exists_ w f) files in
  match pdf_files with
  | [] => None
  | _ => Some pdf_files
  end.

Section Main.

Context (E : environment).

(** The [try] block of [main] with its [except Exception] clause: one
    input goes through [compress_file], several through [compress_batch]. *)
Definition run_jobs (compressor : compressor) (w : world)
    (input_files : list path) (a : args) : Z * world :=
  match input_files with
  | [input_file] =>
      let output_file :=
        match output_dir a with
        | Some d => Some (joinpath d (stem input_file +:+ "_compressed.pdf"))
        | None => output a
        end in
      match compress_file E compressor w input_file output_file with
      | (Returned (true, _), w') => (0, w')
      | (Returned (false, _), w') => (1, w')
      | (Raised _, w') => (1, w')                        (* except Exception *)
      end
  | _ =>
      match compress_batch E compressor w input_files (output_dir a) with
      | (Returned results, w') =>
          let failed_files :=
            List.filter (fun r => negb (fst (fst r))) results in
          match failed_files with
          | [] => (0, w')
          | _ => (1, w')
          end
      | (Raised _, w') => (1, w')                        (* except Exception *)
      end
  end.

(** [main]: the exit status and the final world.  [check_dependencies]
    contributes its [sys.exit(1)] when no PDF library is importable; an
    exception that nothing catches ends the process with status 1 too. *)
Definition main (w : world) (a : args) : Z * world :=
  if negb (PYPDF_AVAILABLE E) then (1, w)
  else
    match expand_file_patterns w (input a) with
    | None => (1, w)
    | Some input_files =>
        if (1 <? length input_files)%nat && bool_decide (is_Some (output a))
        then (1, w)
        else
          match target_bytes_of (target_size_mb a) with
          | Raised _ => (1, w)
          | Returned target_bytes =>
              run_jobs (PDFCompressor (quality a) target_bytes) w input_files a
          end
    end.

End Main.

(** ** Concrete environments and worlds used by the examples *)

Module Scenario.

Definition report : path := Path ["docs"] "report.pdf".
Definition report_out : path := Path ["docs"] "report_compressed.pdf".
Definition empty_pdf : path := Path ["docs"] "empty.pdf".
Definition notes : path := Path ["docs"] "notes.PDF".

(** An engine that is installed and always produces a complete 5-byte file. *)
Definition engine_ok (h : list call) (m : gmap path file) (cmd : list string)
  : run_outcome := RunExit 0 (Wrote (File 5 true)).

(** An engine that always dies with status 1 after writing 10 bytes. *)
Definition engine_crashes (h : list call) (m : gmap path file)
    (cmd : list string) : run_outcome := RunExit 1 (Wrote (File 10 false)).

(** An engine that is not installed. *)
Definition engine_missing (h : list call) (m : gmap path file)
    (cmd : list string) : run_outcome := RunMissing.

Definition library_ok (h : list call) (m : gmap path file) (p : path)
    (compress_streams : bool) : rewrite_outcome := RewriteDone (File 50 true).

Definition library_fails (h : list call) (m : gmap path file) (p : path)
    (compress_streams : bool) : rewrite_outcome := RewriteFailedEarly.

Definition posix_ok : environment :=
  Environment false (fun _ => ProbeMissing) engine_ok library_ok true.

Definition posix_crashing : environment :=
  Environment false (fun _ => ProbeMissing) engine_crashes library_fails true.

Definition posix_no_engine : environment :=
  Environment false (fun _ => ProbeMissing) engine_missing library_ok true.

Definition windows_ok : environment :=
  Environment true (fun _ => ProbeOk) engine_ok library_ok true.

(** One 100-byte input and nothing else. *)
Definition w_report : world := World {[ report := File 100 true ]} [].

(** The same after an earlier run of the tool left its output behind. *)
Definition w_report_rerun : world :=
  World (<[ report_out := File 80 true ]> {[ report := File 100 true ]}) [].

(** A batch directory: an empty file named [empty.pdf] and two real inputs. *)
Definition w_batch : world :=
  World (<[ empty_pdf := File 0 true ]>
           (<[ notes := File 70 true ]> {[ report := File 100 true ]})) [].

Definition with_target (t : Z) : compressor := PDFCompressor medium (Some t).
Definition plain : compressor := PDFCompressor medium None.

End Scenario.

(** ** Vocabulary of the statements *)

(** The log entry of the engine run for one row of the table. *)
Definition config_call (exe : string) (input_path output_path : path)
    (c : string * string * N * N) : call :=
  let '(preset, _, dpi, jpeg_q) := c in
  GsRun (advanced_cmd exe preset dpi jpeg_q (temp_output_of output_path) input_path).

(** The runs logged by an invoker: none when no executable name could be
    chosen. *)
Definition logged_runs (E : environment) (runs : string -> list call)
  : list call :=
  match gs_executable E with
  | Some exe => runs exe
  | None => []
  end.

(** The path [compress_file] writes to. *)
Definition resolved_output (input_path : path) (output_path : option path)
  : path :=
  match output_path with
  | None => default_output input_path
  | Some p => p
  end.

(** The two tests at the head of [compress_file]. *)
Definition accepted_input (w : world) (input_path : path) : bool :=
  exists_ w input_path && String.eqb (lower (suffix input_path)) ".pdf".

(** The file a failed engine run left at the path it was writing, if any. *)
Definition left_by_failure (o : run_outcome) : option file :=
  match o with
  | RunExit rc (Wrote f) => if rc =? 0 then None else Some f
  | RunRaised (Wrote f) => Some f
  | _ => None
  end.

(** The columns of a row of the table. *)
Definition preset_of (c : string * string * N * N) : string := fst (fst (fst c)).
Definition dpi_of (c : string * string * N * N) : N := snd (fst c).
Definition jpeg_of (c : string * string * N * N) : N := snd c.

(** The [if self.target_size_bytes is not None: ... else: ...] statement of
    [compress_file] ("Try different compression methods"): the value of
    [success] and the world it leaves. *)
Definition try_methods (E : environment) (self : compressor) (w : world)
    (input_path output_path : path) : bool * world :=
  match target_size_bytes self with
  | Some target => target_size_search E self w input_path output_path target
  | None => single_shot E self w input_path output_path
  end.

(** What is at [output_path] after an invoker that started in [w] reported
    failure: the file its failed run left, else what was there before. *)
Definition after_failed_run (E : environment) (w : world)
    (cmd : string -> list string) (output_path : path) : option file :=
  match gs_executable E with
  | Some exe =>
      match left_by_failure (gs E (calls w) (fs w) (cmd exe)) with
      | Some f => Some f
      | None => fs w !! output_path
      end
  | None => fs w !! output_path
  end.

(** The engine's side of the invoker contract: a run that exits with status
    0 has written a complete output file. *)
Definition writes_on_success (E : environment) : Prop :=
  forall h m cmd e,
    gs E h m cmd = RunExit 0 e -> exists f, e = Wrote f /\ complete f = true.

(** A failed engine run never leaves a file behind. *)
Definition clean_on_failure (E : environment) : Prop :=
  forall h m cmd, left_by_failure (gs E h m cmd) = None.

(** ** Size formatting ([format_size]) *)

(** The nearest integer to a non-negative rational, ties going to the even
    neighbour: the rounding of Python's [f"{x:.1f}"] once [x] is scaled by
    ten. *)
Definition round_half_even (q : Q) : Z :=
  let n := Qnum q in
  let d := Z.pos (Qden q) in
  let k := n / d in
  let r := n mod d in
  if 2 * r <? d then k
  else if d <? 2 * r then k + 1
  else if Z.even k then k else k + 1.

(** A non-negative number of tenths written with one decimal. *)
Definition show_tenths (tenths : Z) : string :=
  pretty (tenths / 10) +:+ "." +:+ pretty (tenths mod 10).

(** [f"{x:.1f}"] for a non-negative [x]. *)
Definition format_1f (x : Q) : string :=
  show_tenths (round_half_even (x * 10)%Q).

(** The [for unit in ...] loop of [format_size].  The running value is the
    rational the Python float denotes: the first value is the integer size
    and every division by [1024.0] is exact, for sizes below [2 ^ 53]
    bytes. *)
Fixpoint format_size_loop (units : list string) (size_bytes : Q) : string :=
  match units with
  | [] => format_1f size_bytes +:+ " TB"
  | unit :: rest =>
      if negb (Qle_bool 1024 size_bytes)           (* size_bytes < 1024.0 *)
      then format_1f size_bytes +:+ " " +:+ unit
      else format_size_loop rest (size_bytes / 1024)%Q
  end.

Definition format_size (size_bytes : N) : string :=
  format_size_loop ["B"; "KB"; "MB"; "GB"] (inject_Z (Z.of_N size_bytes)).

(** The unit names in the order [format_size] goes through them. *)
Definition size_units : list string := ["B"; "KB"; "MB"; "GB"; "TB"].

(** ** Further environments for examples *)

Module Cases.

(** The engine dies half-way, the library works. *)
Definition engine_crashes_library_ok : environment :=
  Environment false (fun _ => ProbeMissing) Scenario.engine_crashes
    Scenario.library_ok true.

(** Two inputs with the same stem in different directories. *)
Definition draft_a : path := Path ["a"] "draft.pdf".
Definition draft_b : path := Path ["b"] "draft.PDF".

Definition w_drafts : world :=
  World (<[ draft_b := File 40 true ]> {[ draft_a := File 30 true ]}) [].

(** An engine that exits with status 0 and writes nothing. *)
Definition engine_silent (h : list call) (m : gmap path file)
    (cmd : list string) : run_outcome := RunExit 0 Untouched.

Definition posix_silent : environment :=
  Environment false (fun _ => ProbeMissing) engine_silent
    Scenario.library_ok true.

End Cases.

(** ** Paths: the temporary name and the stem *)

Lemma length_append_string (a b : string) :
  String.length (a +:+ b) = (String.length a + String.length b)%nat.
Proof.
  induction a as [|c a IH]; [reflexivity|].
  change (S (String.length (a +:+ b)) = S (String.length a + String.length b)).
  now rewrite IH.
Qed.

(** The temporary path of a job never coincides with its final path. *)
Lemma temp_output_ne (output_path : path) :
  temp_output_of output_path <> output_path.
Proof.
  destruct output_path as [d n]. unfold temp_output_of, joinpath. simpl.
  intros H. injection H as H. apply (f_equal String.length) in H.
  rewrite length_append_string in H. simpl in H. lia.
Qed.

Lemma substring_full (s : string) : substring 0 (String.length s) s = s.
Proof. induction s as [|c s IH]; simpl; [reflexivity | now rewrite IH]. Qed.

Lemma substring_split (s : string) (i : nat) :
  (i <= String.length s)%nat ->
  substring 0 i s +:+ substring i (String.length s - i) s = s.
Proof.
  revert i. induction s as [|c s IH]; intros i Hi.
  - destruct i; reflexivity.
  - destruct i as [|i].
    + rewrite Nat.sub_0_r. change (substring 0 0 (String c s)) with "".
      apply (substring_full (String c s)).
    + simpl in Hi. simpl.
      change (String c (substring 0 i s +:+ substring i (String.length s - i) s)
              = String c s).
      rewrite IH by lia. reflexivity.
Qed.

(** A name whose suffix is not empty is its stem followed by its suffix. *)
Lemma stem_suffix (p : path) :
  suffix p <> "" -> name p = stem p +:+ suffix p.
Proof.
  unfold suffix, stem. destruct (rfind_dot (name p)) as [i|]; [|congruence].
  destruct (splits_at (name p) i) eqn:Hs; [|congruence].
  intros _. symmetry. apply substring_split.
  unfold splits_at in Hs. apply andb_prop in Hs as [_ Hs].
  apply Nat.ltb_lt in Hs. lia.
Qed.

(** ** What the invokers do to the world *)

Section Frames.

Context (E : environment).

Lemma run_engine_calls w cmd out :
  calls (snd (run_engine E w cmd out)) = calls w ++ [GsRun cmd].
Proof. unfold run_engine. destruct (gs E _ _ _); reflexivity. Qed.

(** A run changes the path it writes and nothing else. *)
Lemma run_engine_frame w cmd out p :
  p <> out -> fs (snd (run_engine E w cmd out)) !! p = fs w !! p.
Proof.
  intros Hp. unfold run_engine.
  destruct (gs E _ _ _) as [rc [|f]| |[|f]]; simpl; try reflexivity;
    now rewrite lookup_insert_ne.
Qed.

(** A run removes nothing. *)
Lemma run_engine_keeps w cmd out p :
  is_Some (fs w !! p) -> is_Some (fs (snd (run_engine E w cmd out)) !! p).
Proof.
  intros Hp. unfold run_engine.
  destruct (gs E _ _ _) as [rc [|f]| |[|f]]; simpl; try assumption;
    (destruct (decide (out = p)) as [->|Hne];
     [rewrite lookup_insert_eq; eauto | now rewrite lookup_insert_ne]).
Qed.

(** What a run that reports failure leaves at the path it writes. *)
Lemma run_engine_failure w cmd out :
  fst (run_engine E w cmd out) = false ->
  fs (snd (run_engine E w cmd out)) !! out =
    match left_by_failure (gs E (calls w) (fs w) cmd) with
    | Some f => Some f
    | None => fs w !! out
    end.
Proof.
  unfold run_engine, left_by_failure.
  destruct (gs E _ _ _) as [rc [|f]| |[|f]]; simpl; intros H;
    try reflexivity; try (rewrite H); now rewrite ?lookup_insert_eq.
Qed.

Lemma advanced_calls w inp out preset dpi q :
  calls (snd (compress_with_ghostscript_advanced E w inp out preset dpi q)) =
  calls w ++ logged_runs E (fun exe =>
               [GsRun (advanced_cmd exe preset dpi q out inp)]).
Proof.
  unfold compress_with_ghostscript_advanced, logged_runs.
  destruct (gs_executable E); [apply run_engine_calls|].
  simpl. now rewrite app_nil_r.
Qed.

Lemma advanced_frame w inp out preset dpi q p :
  p <> out ->
  fs (snd (compress_with_ghostscript_advanced E w inp out preset dpi q)) !! p
  = fs w !! p.
Proof.
  intros Hp. unfold compress_with_ghostscript_advanced.
  destruct (gs_executable E); [now apply run_engine_frame | reflexivity].
Qed.

Lemma simple_calls self w inp out q :
  calls (snd (compress_with_ghostscript E self w inp out q)) =
  calls w ++ logged_runs E (fun exe =>
    [GsRun (simple_cmd exe
              (match q with Some x => x | None => gs_settings (compression_level self) end)
              out inp)]).
Proof.
  unfold compress_with_ghostscript, logged_runs.
  destruct (gs_executable E); [apply run_engine_calls|].
  simpl. now rewrite app_nil_r.
Qed.

Lemma simple_frame self w inp out q p :
  p <> out ->
  fs (snd (compress_with_ghostscript E self w inp out q)) !! p = fs w !! p.
Proof.
  intros Hp. unfold compress_with_ghostscript.
  destruct (gs_executable E); [now apply run_engine_frame | reflexivity].
Qed.

Lemma pypdf_frame self w inp out p :
  p <> out ->
  fs (snd (compress_with_pypdf E self w inp out)) !! p = fs w !! p.
Proof.
  intros Hp. unfold compress_with_pypdf.
  destruct (pdf_library E _ _ _ _); simpl; try reflexivity;
    now rewrite lookup_insert_ne.
Qed.

End Frames.

(** ** The loop over the table *)

Section Search.

Context (E : environment).

(** The loop over a concatenated table is the loop over its first part,
    continued over the second part when nothing was accepted. *)
Lemma search_configs_app pre rest w inp out t :
  search_configs E (pre ++ rest) w inp out t =
  (if fst (search_configs E pre w inp out t)
   then search_configs E pre w inp out t
   else search_configs E rest (snd (search_configs E pre w inp out t)) inp out t).
Proof.
  revert w. induction pre as [|[[[preset desc] dpi] q] pre IH]; intros w.
  - reflexivity.
  - cbn [app search_configs].
    destruct (compress_with_ghostscript_advanced E w inp _ preset dpi q)
      as [ok w1].
    destruct ok; [|apply IH].
    destruct (exists_ w1 _); [|apply IH].
    destruct (get_file_size w1 _) as [size|]; [|apply IH].
    destruct (Z.of_N size <=? t); [|apply IH].
    destruct (rename E w1 _ out) as [w2|]; [reflexivity | apply IH].
Qed.

Lemma rename_frame w src dst w' p :
  rename E w src dst = Some w' -> p <> src -> p <> dst ->
  fs w' !! p = fs w !! p.
Proof.
  unfold rename. destruct (fs w !! src) as [f|]; [|discriminate].
  destruct (_ && _); [discriminate|]. intros [= <-] Hs Hd. simpl.
  now rewrite lookup_insert_ne, lookup_delete_ne.
Qed.

Lemma rename_calls w src dst w' :
  rename E w src dst = Some w' -> calls w' = calls w.
Proof.
  unfold rename. destruct (fs w !! src) as [f|]; [|discriminate].
  destruct (_ && _); [discriminate|]. now intros [= <-].
Qed.

(** A successful rename moves the file: it is at the destination and no
    longer at the source. *)
Lemma rename_moves w src dst w' :
  rename E w src dst = Some w' -> src <> dst ->
  fs w' !! dst = fs w !! src /\ fs w' !! src = None.
Proof.
  unfold rename. destruct (fs w !! src) as [f|] eqn:Hf; [|discriminate].
  destruct (_ && _); [discriminate|]. intros [= <-] Hne. simpl.
  rewrite lookup_insert_eq, lookup_insert_ne, lookup_delete_eq by congruence.
  split; reflexivity.
Qed.

(** The loop touches the temporary path and, when it accepts, the final
    path; every other file is as it was. *)
Lemma search_configs_frame cs w inp out t p :
  p <> out -> p <> temp_output_of out ->
  fs (snd (search_configs E cs w inp out t)) !! p = fs w !! p.
Proof.
  intros Ho Ht. revert w.
  induction cs as [|[[[preset desc] dpi] q] cs IH]; intros w; [reflexivity|].
  cbn [search_configs].
  pose proof (advanced_frame E w inp (temp_output_of out) preset dpi q p Ht) as Hf.
  destruct (compress_with_ghostscript_advanced E w inp _ preset dpi q)
    as [ok w1]. simpl in Hf.
  assert (Hu : fs (unlink w1 (temp_output_of out)) !! p = fs w !! p)
    by (simpl; now rewrite lookup_delete_ne).
  destruct ok; [|now rewrite IH].
  destruct (exists_ w1 _); [|now rewrite IH].
  destruct (get_file_size w1 _) as [size|]; [|now rewrite IH].
  destruct (Z.of_N size <=? t); [|now rewrite IH].
  destruct (rename E w1 _ out) as [w2|] eqn:Hr; [|now rewrite IH].
  simpl. rewrite (rename_frame _ _ _ _ _ Hr) by assumption. exact Hf.
Qed.

(** A loop that accepts nothing leaves the final path as it found it. *)
Lemma search_configs_rejected cs w inp out t :
  fst (search_configs E cs w inp out t) = false ->
  fs (snd (search_configs E cs w inp out t)) !! out = fs w !! out.
Proof.
  revert w.
  induction cs as [|[[[preset desc] dpi] q] cs IH]; intros w; [reflexivity|].
  cbn [search_configs].
  pose proof (advanced_frame E w inp (temp_output_of out) preset dpi q out
                (not_eq_sym (temp_output_ne out))) as Hf.
  destruct (compress_with_ghostscript_advanced E w inp _ preset dpi q)
    as [ok w1]. simpl in Hf.
  assert (Hu : fs (unlink w1 (temp_output_of out)) !! out = fs w !! out).
  { simpl. rewrite lookup_delete_ne by apply temp_output_ne. exact Hf. }
  destruct ok; [|intros H; now rewrite IH].
  destruct (exists_ w1 _); [|intros H; now rewrite IH].
  destruct (get_file_size w1 _) as [size|]; [|intros H; now rewrite IH].
  destruct (Z.of_N size <=? t); [|intros H; now rewrite IH].
  destruct (rename E w1 _ out) as [w2|]; [discriminate|intros H; now rewrite IH].
Qed.

(** A loop that accepts leaves a file within the target at the final path
    and nothing at the temporary path. *)
Lemma search_configs_accepted cs w inp out t :
  fst (search_configs E cs w inp out t) = true ->
  exists f, fs (snd (search_configs E cs w inp out t)) !! out = Some f
            /\ Z.of_N (fsize f) <= t
            /\ fs (snd (search_configs E cs w inp out t)) !! temp_output_of out = None.
Proof.
  revert w.
  induction cs as [|[[[preset desc] dpi] q] cs IH]; intros w; [discriminate|].
  cbn [search_configs].
  destruct (compress_with_ghostscript_advanced E w inp _ preset dpi q)
    as [ok w1].
  destruct ok; [|apply IH].
  destruct (exists_ w1 _); [|apply IH].
  destruct (get_file_size w1 _) as [size|] eqn:Hsize; [|apply IH].
  destruct (Z.of_N size <=? t) eqn:Hle; [|apply IH].
  destruct (rename E w1 _ out) as [w2|] eqn:Hr; [|apply IH].
  intros _. simpl.
  destruct (rename_moves _ _ _ _ Hr (temp_output_ne out)) as [Hd Hs].
  unfold get_file_size in Hsize.
  destruct (fs w1 !! temp_output_of out) as [f|]; [|discriminate].
  injection Hsize as <-. exists f. rewrite Hd, Hs.
  apply Z.leb_le in Hle. auto.
Qed.

(** The engine is run for a prefix of the table, in table order, once per
    row. *)
Lemma search_configs_calls cs w inp out t :
  exists k, (k <= length cs)%nat /\
    (fst (search_configs E cs w inp out t) = false -> k = length cs) /\
    calls (snd (search_configs E cs w inp out t)) =
    calls w ++ logged_runs E (fun exe => map (config_call exe inp out) (take k cs)).
Proof.
  revert w.
  induction cs as [|[[[preset desc] dpi] q] cs IH]; intros w.
  - exists 0%nat. split; [lia|]. split; [reflexivity|]. unfold logged_runs. simpl.
    destruct (gs_executable E); now rewrite app_nil_r.
  - cbn [search_configs].
    pose proof (advanced_calls E w inp (temp_output_of out) preset dpi q) as Hc.
    destruct (compress_with_ghostscript_advanced E w inp _ preset dpi q)
      as [ok w1]. simpl in Hc.
    assert (Hnext : forall w1', calls w1' = calls w1 ->
      exists k, (k <= length ((preset, desc, dpi, q) :: cs))%nat /\
        (fst (search_configs E cs w1' inp out t) = false ->
         k = length ((preset, desc, dpi, q) :: cs)) /\
        calls (snd (search_configs E cs w1' inp out t)) =
        calls w ++ logged_runs E (fun exe =>
          map (config_call exe inp out) (take k ((preset, desc, dpi, q) :: cs)))).
    { intros w1' Hw1'. destruct (IH w1') as (k & Hk & Hall & Hcalls).
      exists (S k). split; [simpl; lia|]. split.
      - intros H. simpl. now rewrite (Hall H).
      - rewrite Hcalls, Hw1', Hc. unfold logged_runs.
        destruct (gs_executable E); simpl; [|now rewrite !app_nil_r].
        now rewrite <- app_assoc. }
    destruct ok; [|now apply Hnext].
    destruct (exists_ w1 _); [|now apply Hnext].
    destruct (get_file_size w1 _) as [size|]; [|now apply Hnext].
    destruct (Z.of_N size <=? t); [|now apply Hnext].
    destruct (rename E w1 _ out) as [w2|] eqn:Hr; [|now apply Hnext].
    exists 1%nat. split; [simpl; lia|]. split; [discriminate|].
    simpl. rewrite (rename_calls _ _ _ _ Hr), Hc. unfold logged_runs.
    destruct (gs_executable E); reflexivity.
Qed.

End Search.

(** ** [compress_file] as a whole *)

Section CompressFile.

Context (E : environment).

Lemma exists_size w p :
  exists_ w p = true -> exists n, get_file_size w p = Some n.
Proof.
  unfold exists_, get_file_size. intros H. apply bool_decide_eq_true in H.
  destruct H as [f ->]. now exists (fsize f).
Qed.

Lemma exists_is_Some w p : exists_ w p = true <-> is_Some (fs w !! p).
Proof. unfold exists_. apply bool_decide_eq_true. Qed.

Lemma exists_None w p : exists_ w p = false <-> fs w !! p = None.
Proof.
  unfold exists_. rewrite bool_decide_eq_false, <- eq_None_not_Some. tauto.
Qed.

(** [compress_file] by cases: the two tests on the input, then the methods,
    then the final test [success and output_path.exists()]; the ratio
    divides by the size of the input. *)
Lemma compress_file_cases self w inp outp :
  compress_file E self w inp outp =
  if accepted_input w inp then
    let out := resolved_output inp outp in
    let sw := try_methods E self w inp out in
    if fst sw && exists_ (snd sw) out then
      if bool_decide (get_file_size w inp = Some 0%N)
      then (Raised ZeroDivisionError, snd sw)
      else (Returned (true, out), snd sw)
    else (Returned (false, inp), snd sw)
  else (Returned (false, inp), w).
Proof.
  unfold compress_file, accepted_input, try_methods, resolved_output.
  destruct (exists_ w inp) eqn:Hin; [|reflexivity]. simpl.
  destruct (String.eqb _ _); [|reflexivity]. simpl.
  destruct (exists_size _ _ Hin) as [n ->].
  set (out := match outp with None => _ | Some p => p end).
  set (sw := match target_size_bytes self with Some t => _ | None => _ end).
  destruct sw as [success w1]. simpl.
  destruct (success && exists_ w1 out) eqn:Hs; [|reflexivity].
  apply andb_prop in Hs as [_ Hex]. destruct (exists_size _ _ Hex) as [m ->].
  destruct (N.eqb_spec n 0) as [->|Hn].
  - rewrite bool_decide_eq_true_2; reflexivity.
  - rewrite bool_decide_eq_false_2; [reflexivity|congruence].
Qed.

Lemma target_size_search_frame self w inp out t p :
  p <> out -> p <> temp_output_of out ->
  fs (snd (target_size_search E self w inp out t)) !! p = fs w !! p.
Proof.
  intros Ho Ht. unfold target_size_search.
  pose proof (search_configs_frame E configs w inp out t p Ho Ht) as Hf.
  destruct (search_configs E configs w inp out t) as [[] w1]; simpl in *;
    [exact Hf|].
  now rewrite simple_frame.
Qed.

Lemma single_shot_frame self w inp out p :
  p <> out -> fs (snd (single_shot E self w inp out)) !! p = fs w !! p.
Proof.
  intros Ho. unfold single_shot.
  pose proof (simple_frame E self w inp out None p Ho) as Hf.
  destruct (compress_with_ghostscript E self w inp out None) as [[] w1];
    simpl in *; [exact Hf|].
  destruct (PYPDF_AVAILABLE E); [|exact Hf].
  now rewrite pypdf_frame.
Qed.

Lemma try_methods_frame self w inp out p :
  p <> out -> p <> temp_output_of out ->
  fs (snd (try_methods E self w inp out)) !! p = fs w !! p.
Proof.
  intros Ho Ht. unfold try_methods. destruct (target_size_bytes self).
  - now apply target_size_search_frame.
  - now apply single_shot_frame.
Qed.

(** Only the output path and its temporary sibling can differ after a
    call. *)
Lemma compress_file_frame self w inp outp p :
  p <> resolved_output inp outp ->
  p <> temp_output_of (resolved_output inp outp) ->
  fs (snd (compress_file E self w inp outp)) !! p = fs w !! p.
Proof.
  intros Ho Ht. rewrite compress_file_cases.
  destruct (accepted_input w inp); [|reflexivity]. cbv zeta.
  destruct (_ && _); [destruct (bool_decide _)|]; simpl;
    now apply try_methods_frame.
Qed.

(** A reported success names the resolved output path, and a file is
    there. *)
Lemma compress_file_success self w inp outp p :
  fst (compress_file E self w inp outp) = Returned (true, p) ->
  p = resolved_output inp outp /\
  is_Some (fs (snd (compress_file E self w inp outp)) !! resolved_output inp outp).
Proof.
  rewrite compress_file_cases.
  destruct (accepted_input w inp); [|discriminate]. cbv zeta.
  destruct (_ && _) eqn:Hs; [destruct (bool_decide _)|]; simpl;
    try discriminate.
  intros [= <-]. split; [reflexivity|].
  apply andb_prop in Hs as [_ Hex]. now apply exists_is_Some.
Qed.

End CompressFile.

(** ** The configuration table *)


(** ** The default output path *)



(** The run of the example: the report is written beside itself. *)
Example default_output_report :
  fst (compress_file Scenario.posix_ok Scenario.plain
         Scenario.w_report Scenario.report None)
  = Returned (true, Path ["docs"] "report_compressed.pdf")
  /\ default_output Scenario.notes = Path ["docs"] "notes_compressed.pdf".
Proof. split; vm_compute; reflexivity. Qed.

(** ** Single-shot compression *)

Section SingleShot.

Context (E : environment).

Lemma pypdf_calls self w inp out :
  calls (snd (compress_with_pypdf E self w inp out)) =
  calls w ++ [PdfRewrite inp out (remove_duplicates (compression_level self))].
Proof.
  unfold compress_with_pypdf. destruct (pdf_library E _ _ _ _); reflexivity.
Qed.

(** The library path reports success only after writing its output. *)
Lemma pypdf_success_exists self w inp out :
  fst (compress_with_pypdf E self w inp out) = true ->
  exists_ (snd (compress_with_pypdf E self w inp out)) out = true.
Proof.
  unfold compress_with_pypdf.
  destruct (pdf_library E _ _ _ _); simpl; try discriminate.
  intros _. apply exists_is_Some. cbn [fs]. rewrite lookup_insert_eq. eauto.
Qed.

(** With an engine that writes its output file whenever it exits with
    status 0, the invoker reports success only with a file at the output
    path. *)
Lemma simple_success_exists self w inp out q :
  (forall h m cmd e, gs E h m cmd = RunExit 0 e -> exists f, e = Wrote f) ->
  fst (compress_with_ghostscript E self w inp out q) = true ->
  exists_ (snd (compress_with_ghostscript E self w inp out q)) out = true.
Proof.
  intros Hgs. unfold compress_with_ghostscript.
  destruct (gs_executable E) as [exe|]; [|discriminate].
  unfold run_engine.
  destruct (gs E _ _ _) as [rc e| |e] eqn:Hrun; simpl; try discriminate.
  intros Hrc. apply Z.eqb_eq in Hrc. subst rc.
  destruct (Hgs _ _ _ _ Hrun) as [f ->].
  apply exists_is_Some. cbn [snd fs apply_effect]. rewrite lookup_insert_eq. eauto.
Qed.

End SingleShot.

(** C9, as the code has it.  Without a target size, for an accepted input:
    the engine is run first, once, with the preset that [gs_settings] gives
    for the compression level; the library rewrite is run, once and after
    it, exactly when the engine attempt reported failure and the library is
    available.  The job is reported as failed exactly when the engine
    attempt failed and the library is unavailable or its attempt failed too,
    or when the engine attempt reported success and no file is at the output
    path -- the final test [success and output_path.exists()] then fails the
    job with the library untried.  For an engine that leaves its output file
    whenever it exits with status 0 the second case cannot occur, and the
    job is reported as failed exactly when both paths fail. *)
Theorem single_shot_engine_then_library E self w inp outp :
  target_size_bytes self = None ->
  accepted_input w inp = true ->
  let out := resolved_output inp outp in
  let g := compress_with_ghostscript E self w inp out None in
  let r := compress_file E self w inp outp in
  calls (snd r) =
    calls w
    ++ logged_runs E (fun exe =>
         [GsRun (simple_cmd exe (gs_settings (compression_level self)) out inp)])
    ++ (if negb (fst g) && PYPDF_AVAILABLE E
        then [PdfRewrite inp out (remove_duplicates (compression_level self))]
        else [])
  /\ (fst r = Returned (false, inp) <->
      (fst g = false /\
       (PYPDF_AVAILABLE E = false \/
        fst (compress_with_pypdf E self (snd g) inp out) = false))
      \/ (fst g = true /\ fs (snd g) !! out = None))
  /\ ((forall h m cmd e, gs E h m cmd = RunExit 0 e -> exists f, e = Wrote f) ->
      (fst r = Returned (false, inp) <->
       fst g = false /\
       (PYPDF_AVAILABLE E = false \/
        fst (compress_with_pypdf E self (snd g) inp out) = false))).
Proof.
  intros Htarget Hacc out g r.
  assert (Hmain :
    calls (snd r) =
      calls w
      ++ logged_runs E (fun exe =>
           [GsRun (simple_cmd exe (gs_settings (compression_level self)) out inp)])
      ++ (if negb (fst g) && PYPDF_AVAILABLE E
          then [PdfRewrite inp out (remove_duplicates (compression_level self))]
          else [])
    /\ (fst r = Returned (false, inp) <->
        (fst g = false /\
         (PYPDF_AVAILABLE E = false \/
          fst (compress_with_pypdf E self (snd g) inp out) = false))
        \/ (fst g = true /\ fs (snd g) !! out = None))).
  { subst r. rewrite compress_file_cases, Hacc. cbv zeta. fold out.
    unfold try_methods. rewrite Htarget. unfold single_shot. fold g.
    pose proof (simple_calls E self w inp out None) as Hcalls. fold g in Hcalls.
    destruct g as [ok w1]. simpl in Hcalls. simpl fst; simpl snd.
    destruct ok; simpl negb; simpl andb.
    - rewrite app_nil_r. destruct (exists_ w1 out) eqn:Hex; simpl andb.
      + apply exists_is_Some in Hex. destruct Hex as [f0 Hf0].
        destruct (bool_decide _); simpl; (split; [exact Hcalls|]);
          (split; [discriminate
                  | intros [[? _]|[_ ?]]; [discriminate | congruence]]).
      + apply exists_None in Hex. simpl. split; [exact Hcalls|].
        split; [intros _; right; auto | reflexivity].
    - destruct (PYPDF_AVAILABLE E) eqn:Hav.
      + pose proof (pypdf_calls E self w1 inp out) as Hp.
        pose proof (pypdf_success_exists E self w1 inp out) as Hpex.
        destruct (compress_with_pypdf E self w1 inp out) as [ok2 w2].
        simpl in Hp, Hpex. simpl fst; simpl snd.
        destruct ok2.
        * rewrite (Hpex eq_refl). simpl andb.
          destruct (bool_decide _); simpl;
            (split; [now rewrite Hp, Hcalls, app_assoc|]);
            (split; [discriminate
                    | intros [[_ [?|?]]|[? _]]; discriminate]).
        * simpl. split; [now rewrite Hp, Hcalls, app_assoc|].
          split; auto.
      + simpl. rewrite app_nil_r. split; [exact Hcalls|]. split; auto. }
  destruct Hmain as [Hcalls Hiff]. split; [exact Hcalls|]. split; [exact Hiff|].
  intros Hgs. rewrite Hiff. split; [|auto].
  intros [H|[Hok Hnone]]; [exact H|].
  pose proof (simple_success_exists E self w inp out None Hgs Hok) as Hex.
  fold g in Hex. apply exists_is_Some in Hex. rewrite Hnone in Hex.
  now destruct Hex.
Qed.

Lemma single_shot_engine_then_library_witness :
  target_size_bytes Scenario.plain = None /\
  accepted_input Scenario.w_report Scenario.report = true /\
  let E := Scenario.posix_no_engine in
  let out := resolved_output Scenario.report None in
  let g := compress_with_ghostscript E Scenario.plain Scenario.w_report
             Scenario.report out None in
  let r := compress_file E Scenario.plain Scenario.w_report Scenario.report None in
  calls (snd r) =
    calls Scenario.w_report
    ++ logged_runs E (fun exe =>
         [GsRun (simple_cmd exe (gs_settings (compression_level Scenario.plain))
                   out Scenario.report)])
    ++ (if negb (fst g) && PYPDF_AVAILABLE E
        then [PdfRewrite Scenario.report out
                (remove_duplicates (compression_level Scenario.plain))]
        else [])
  /\ (fst r = Returned (false, Scenario.report) <->
      (fst g = false /\
       (PYPDF_AVAILABLE E = false \/
        fst (compress_with_pypdf E Scenario.plain (snd g) Scenario.report out)
        = false))
      \/ (fst g = true /\ fs (snd g) !! out = None))
  /\ ((forall h m cmd e, gs E h m cmd = RunExit 0 e -> exists f, e = Wrote f) ->
      (fst r = Returned (false, Scenario.report) <->
       fst g = false /\
       (PYPDF_AVAILABLE E = false \/
        fst (compress_with_pypdf E Scenario.plain (snd g) Scenario.report out)
        = false))).
Proof.
  split; [reflexivity|]. split; [reflexivity|].
  apply (single_shot_engine_then_library Scenario.posix_no_engine Scenario.plain
           Scenario.w_report Scenario.report None); reflexivity.
Defined.

(** C9 as stated fails: the engine exits with status 0 without writing its
    output file.  The invoker returns [True], so the [elif] with the library
    is not evaluated; the final test finds no file and the job is reported
    as failed, with one engine run logged and the library, which is
    available and would have written the file, never tried. *)
Lemma silent_engine_fails_job_without_library :
  let E := Cases.posix_silent in
  let out := Scenario.report_out in
  let g := compress_with_ghostscript E Scenario.plain Scenario.w_report
             Scenario.report out None in
  let r := compress_file E Scenario.plain Scenario.w_report Scenario.report None in
  fst r = Returned (false, Scenario.report)
  /\ calls (snd r) =
     [GsRun (simple_cmd "gs" "/printer" out Scenario.report)]
  /\ fst (compress_with_pypdf E Scenario.plain (snd g) Scenario.report out) = true
  /\ ~ (fst r = Returned (false, Scenario.report) ->
        fst g = false /\
        (PYPDF_AVAILABLE E = false \/
         fst (compress_with_pypdf E Scenario.plain (snd g) Scenario.report out)
         = false)).
Proof.
  cbv zeta. split; [vm_compute; reflexivity|]. split; [vm_compute; reflexivity|].
  split; [vm_compute; reflexivity|].
  intros H. destruct (H ltac:(vm_compute; reflexivity)) as [Hg _].
  vm_compute in Hg. discriminate Hg.
Qed.

(** The two runs of the example, as logged: Ghostscript with [/printer] for
    the level [medium], then the library. *)
Example single_shot_log :
  calls (snd (compress_file Scenario.posix_no_engine Scenario.plain
                Scenario.w_report Scenario.report None))
  = [ GsRun [ "gs"; "-sDEVICE=pdfwrite"; "-dCompatibilityLevel=1.4";
              "-dPDFSETTINGS=/printer"; "-dNOPAUSE"; "-dQUIET"; "-dBATCH";
              "-sOutputFile=docs/report_compressed.pdf"; "docs/report.pdf" ];
      PdfRewrite Scenario.report Scenario.report_out true ].
Proof. vm_compute. reflexivity. Qed.

(** ** The invokers and the files they leave *)

Section Invokers.

Context (E : environment).

Lemma advanced_keeps w inp out preset dpi q p :
  is_Some (fs w !! p) ->
  is_Some (fs (snd (compress_with_ghostscript_advanced E w inp out preset dpi q)) !! p).
Proof.
  intros Hp. unfold compress_with_ghostscript_advanced.
  destruct (gs_executable E); [now apply run_engine_keeps | exact Hp].
Qed.

Lemma simple_keeps self w inp out q p :
  is_Some (fs w !! p) ->
  is_Some (fs (snd (compress_with_ghostscript E self w inp out q)) !! p).
Proof.
  intros Hp. unfold compress_with_ghostscript.
  destruct (gs_executable E); [now apply run_engine_keeps | exact Hp].
Qed.

Lemma advanced_failure w inp out preset dpi q :
  fst (compress_with_ghostscript_advanced E w inp out preset dpi q) = false ->
  fs (snd (compress_with_ghostscript_advanced E w inp out preset dpi q)) !! out
  = after_failed_run E w (fun exe => advanced_cmd exe preset dpi q out inp) out.
Proof.
  unfold compress_with_ghostscript_advanced, after_failed_run.
  destruct (gs_executable E); [apply run_engine_failure | reflexivity].
Qed.

Lemma simple_failure self w inp out q :
  fst (compress_with_ghostscript E self w inp out q) = false ->
  fs (snd (compress_with_ghostscript E self w inp out q)) !! out
  = after_failed_run E w
      (fun exe => simple_cmd exe
         (match q with Some x => x | None => gs_settings (compression_level self) end)
         out inp) out.
Proof.
  unfold compress_with_ghostscript, after_failed_run.
  destruct (gs_executable E); [apply run_engine_failure | reflexivity].
Qed.

End Invokers.

(** C4, as the code has it.  Neither invoker removes anything, whether it
    reports success or failure: every path other than the requested output
    is unchanged, every file present before the call is present after it,
    and after a reported failure the requested output path holds the file
    the failed run left there, or, if the run left none, what was there
    before the call. *)
Theorem invoker_removes_nothing E self w inp out preset dpi q override :
  let a := compress_with_ghostscript_advanced E w inp out preset dpi q in
  let s := compress_with_ghostscript E self w inp out override in
  (forall p, p <> out ->
     fs (snd a) !! p = fs w !! p /\ fs (snd s) !! p = fs w !! p)
  /\ (forall p, is_Some (fs w !! p) ->
        is_Some (fs (snd a) !! p) /\ is_Some (fs (snd s) !! p))
  /\ (fst a = false ->
        fs (snd a) !! out =
        after_failed_run E w (fun exe => advanced_cmd exe preset dpi q out inp) out)
  /\ (fst s = false ->
        fs (snd s) !! out =
        after_failed_run E w
          (fun exe => simple_cmd exe
             (match override with
              | Some x => x
              | None => gs_settings (compression_level self)
              end) out inp) out).
Proof.
  cbv zeta. repeat split.
  - now apply advanced_frame.
  - now apply simple_frame.
  - now apply advanced_keeps.
  - now apply simple_keeps.
  - apply advanced_failure.
  - apply simple_failure.
Qed.

(** C4 as stated fails: the engine dies with status 1 after writing ten
    bytes; each invoker reports the failure and the ten bytes are still at
    the requested output path. *)
Lemma invoker_failure_leaves_partial_file :
  let a := compress_with_ghostscript_advanced Scenario.posix_crashing
             Scenario.w_report Scenario.report Scenario.report_out
             "/screen" 100 60 in
  let s := compress_with_ghostscript Scenario.posix_crashing Scenario.plain
             Scenario.w_report Scenario.report Scenario.report_out
             (Some "/screen") in
  ~ (fst a = false -> fs (snd a) !! Scenario.report_out = None) /\
  ~ (fst s = false -> fs (snd s) !! Scenario.report_out = None).
Proof.
  cbv zeta. split; intros H; specialize (H eq_refl);
    vm_compute in H; discriminate H.
Qed.

(** ** The final output path after the target-size search *)

Section FinalFile.

Context (E : environment).

Lemma run_engine_success_complete w cmd out :
  writes_on_success E ->
  fst (run_engine E w cmd out) = true ->
  exists f, fs (snd (run_engine E w cmd out)) !! out = Some f /\ complete f = true.
Proof.
  intros Hgs. unfold run_engine.
  destruct (gs E _ _ _) as [rc e| |e] eqn:Hrun; simpl; try discriminate.
  intros Hrc. apply Z.eqb_eq in Hrc. subst rc.
  destruct (Hgs _ _ _ _ Hrun) as (f & -> & Hf). exists f.
  cbn [apply_effect]. now rewrite lookup_insert_eq.
Qed.

Lemma advanced_success_complete w inp out preset dpi q :
  writes_on_success E ->
  fst (compress_with_ghostscript_advanced E w inp out preset dpi q) = true ->
  exists f,
    fs (snd (compress_with_ghostscript_advanced E w inp out preset dpi q)) !! out
    = Some f /\ complete f = true.
Proof.
  intros Hgs. unfold compress_with_ghostscript_advanced.
  destruct (gs_executable E); [now apply run_engine_success_complete|discriminate].
Qed.

Lemma simple_success_complete self w inp out q :
  writes_on_success E ->
  fst (compress_with_ghostscript E self w inp out q) = true ->
  exists f,
    fs (snd (compress_with_ghostscript E self w inp out q)) !! out = Some f
    /\ complete f = true.
Proof.
  intros Hgs. unfold compress_with_ghostscript.
  destruct (gs_executable E); [now apply run_engine_success_complete|discriminate].
Qed.

(** With an engine that honours its side of the contract, the file the loop
    accepts is a complete one. *)
Lemma search_configs_accepted_complete cs w inp out t :
  writes_on_success E ->
  fst (search_configs E cs w inp out t) = true ->
  exists f, fs (snd (search_configs E cs w inp out t)) !! out = Some f
            /\ complete f = true.
Proof.
  intros Hgs. revert w.
  induction cs as [|[[[preset desc] dpi] q] cs IH]; intros w; [discriminate|].
  cbn [search_configs].
  pose proof (advanced_success_complete w inp (temp_output_of out) preset dpi q Hgs)
    as Hc.
  destruct (compress_with_ghostscript_advanced E w inp _ preset dpi q)
    as [ok w1]. simpl in Hc.
  destruct ok; [|apply IH].
  destruct (exists_ w1 _); [|apply IH].
  destruct (get_file_size w1 _) as [size|]; [|apply IH].
  destruct (Z.of_N size <=? t); [|apply IH].
  destruct (rename E w1 _ out) as [w2|] eqn:Hr; [|apply IH].
  intros _. simpl.
  destruct (rename_moves E _ _ _ _ Hr (temp_output_ne out)) as [Hd _].
  destruct (Hc eq_refl) as (f & Hf & Hcomplete).
  exists f. now rewrite Hd, Hf.
Qed.

End FinalFile.

(** C2, as the code has it.  After a call with a target size: a reported
    success returns the output path and a file is there, a complete one when
    the engine writes a complete file whenever it exits with status 0; a
    reported failure returns the input path, and the output path then holds
    nothing, or what it held before the call, or what the failed fallback
    run left there -- the code never removes it.  So a failure leaves no
    file at the output path when none was there before the call and failed
    engine runs leave nothing behind. *)
Theorem final_file_after_search E lvl w inp outp t :
  let self := PDFCompressor lvl (Some t) in
  let out := resolved_output inp outp in
  let r := compress_file E self w inp outp in
  (forall p, fst r = Returned (true, p) ->
     p = out /\ is_Some (fs (snd r) !! out) /\
     (writes_on_success E ->
      exists f, fs (snd r) !! out = Some f /\ complete f = true))
  /\ (forall p, fst r = Returned (false, p) ->
        p = inp /\
        (fs (snd r) !! out = None \/
         fs (snd r) !! out = fs w !! out \/
         exists w1,
           search_configs E configs w inp out t = (false, w1) /\
           fs (snd r) !! out =
           after_failed_run E w1 (fun exe => simple_cmd exe "/screen" out inp) out))
  /\ (fs w !! out = None -> clean_on_failure E ->
      forall p, fst r = Returned (false, p) -> fs (snd r) !! out = None).
Proof.
  intros self out r.
  assert (Hfail : forall p, fst r = Returned (false, p) ->
        p = inp /\
        (fs (snd r) !! out = None \/
         fs (snd r) !! out = fs w !! out \/
         exists w1,
           search_configs E configs w inp out t = (false, w1) /\
           fs (snd r) !! out =
           after_failed_run E w1 (fun exe => simple_cmd exe "/screen" out inp) out)).
  { subst r. rewrite compress_file_cases.
    destruct (accepted_input w inp); [|intros p [= <-]; auto].
    cbv zeta. fold out. unfold try_methods, self. cbn [target_size_bytes].
    unfold target_size_search.
    destruct (search_configs E configs w inp out t) as [ok w1] eqn:Hloop.
    destruct ok.
    - cbn [fst snd]. destruct (true && exists_ w1 out) eqn:Hex.
      + destruct (bool_decide _); cbn [fst]; intros p Hp; discriminate Hp.
      + cbn [fst snd]. intros p [= <-]. split; [reflexivity|]. left.
        now apply exists_None.
    - pose proof (simple_failure E (PDFCompressor lvl (Some t)) w1 inp out
                    (Some "/screen")) as Hleft.
      destruct (compress_with_ghostscript E _ w1 inp out (Some "/screen"))
        as [ok2 w2]. cbn [fst snd] in *.
      destruct ok2.
      + destruct (true && exists_ w2 out) eqn:Hex.
        * destruct (bool_decide _); cbn [fst]; intros p Hp; discriminate Hp.
        * cbn [fst snd]. intros p [= <-]. split; [reflexivity|]. left.
          now apply exists_None.
      + cbn [andb fst snd]. intros p [= <-]. split; [reflexivity|].
        right. right. exists w1. split; [reflexivity|]. now apply Hleft. }
  split; [|split; [exact Hfail|]].
  - intros p Hp. destruct (compress_file_success E self w inp outp p Hp) as [-> Hsome].
    split; [reflexivity|]. split; [exact Hsome|]. intros Hgs.
    subst r. revert Hp. rewrite compress_file_cases.
    destruct (accepted_input w inp); [|discriminate].
    cbv zeta. fold out. unfold try_methods, self. cbn [target_size_bytes].
    unfold target_size_search.
    pose proof (search_configs_accepted_complete E configs w inp out t Hgs) as Hacc.
    destruct (search_configs E configs w inp out t) as [ok w1].
    cbn [fst snd] in Hacc. destruct ok.
    + cbn [fst snd]. destruct (true && exists_ w1 out);
        [destruct (bool_decide _)|]; cbn [fst snd]; try discriminate.
      intros _. now apply Hacc.
    + pose proof (simple_success_complete E (PDFCompressor lvl (Some t)) w1 inp
                    out (Some "/screen") Hgs) as Hfb.
      destruct (compress_with_ghostscript E _ w1 inp out (Some "/screen"))
        as [ok2 w2]. cbn [fst snd] in *.
      destruct ok2; [|cbn [andb fst]; discriminate].
      destruct (true && exists_ w2 out);
        [destruct (bool_decide _)|]; cbn [fst snd]; try discriminate.
      intros _. now apply Hfb.
  - intros Hnone Hclean p Hp.
    destruct (Hfail p Hp) as [_ [H|[H|(w1 & Hloop & H)]]]; [exact H|congruence|].
    rewrite H. unfold after_failed_run.
    pose proof (search_configs_rejected E configs w inp out t) as Hrej.
    rewrite Hloop in Hrej. cbn [fst snd] in Hrej.
    destruct (gs_executable E); [rewrite Hclean|]; rewrite Hrej by reflexivity;
      exact Hnone.
Qed.

(** C2 as stated fails: the engine dies with status 1 after writing ten
    bytes on every run; the search reports failure and ten bytes of partial
    output are at the final output path, so neither alternative holds. *)
Lemma failed_search_leaves_output_file :
  let out := Scenario.report_out in
  let r := compress_file Scenario.posix_crashing (Scenario.with_target 50)
             Scenario.w_report Scenario.report None in
  ~ ((fst r = Returned (true, out) /\
      exists f, fs (snd r) !! out = Some f /\ complete f = true)
     \/ (fst r = Returned (false, Scenario.report) /\ fs (snd r) !! out = None)).
Proof.
  cbv zeta. intros [[H _]|[_ H]]; vm_compute in H; discriminate H.
Qed.

(** ** The fallback after the table *)

(** C5, as the code has it.  For an accepted, non-empty input: when the loop
    over the table accepts nothing, the search calls the simple invoker once
    more, with the preset [/screen] and the final output path as its output
    (one engine run, logged last).  If that call reports success and a file
    is at the output path, the outcome is success, whatever the size of the
    file.  If it reports failure, the outcome is failure and the output path
    holds what the failed run left there, or, if it left nothing, what was
    there before: nothing is removed. *)
Theorem fallback_after_exhausted_table E lvl w inp outp t :
  let self := PDFCompressor lvl (Some t) in
  let out := resolved_output inp outp in
  let w1 := snd (search_configs E configs w inp out t) in
  let fb := compress_with_ghostscript E self w1 inp out (Some "/screen") in
  let r := compress_file E self w inp outp in
  accepted_input w inp = true ->
  get_file_size w inp <> Some 0%N ->
  fst (search_configs E configs w inp out t) = false ->
  snd r = snd fb
  /\ calls (snd r) =
     calls w1 ++ logged_runs E (fun exe => [GsRun (simple_cmd exe "/screen" out inp)])
  /\ (fst fb = true -> is_Some (fs (snd fb) !! out) ->
      fst r = Returned (true, out))
  /\ (fst fb = false ->
      fst r = Returned (false, inp) /\
      fs (snd r) !! out =
      after_failed_run E w1 (fun exe => simple_cmd exe "/screen" out inp) out).
Proof.
  intros self out w1 fb r Hacc Hsize Hloop. subst r.
  rewrite compress_file_cases, Hacc. cbv zeta. fold out.
  unfold try_methods, self. cbn [target_size_bytes]. unfold target_size_search.
  fold self. subst w1 fb.
  destruct (search_configs E configs w inp out t) as [ok w1].
  cbn [fst snd] in *. subst ok.
  pose proof (simple_calls E self w1 inp out (Some "/screen")) as Hcalls.
  pose proof (simple_failure E self w1 inp out (Some "/screen")) as Hleft.
  destruct (compress_with_ghostscript E self w1 inp out (Some "/screen"))
    as [ok2 w2]. cbn [fst snd] in *.
  rewrite (bool_decide_eq_false_2 _ Hsize).
  assert (Hsnd : snd (if ok2 && exists_ w2 out
                      then (Returned (true, out), w2)
                      else (Returned (false, inp), w2)) = w2)
    by (destruct (ok2 && exists_ w2 out); reflexivity).
  rewrite Hsnd. split; [reflexivity|]. split; [exact Hcalls|]. split.
  - intros -> Hex. apply exists_is_Some in Hex. now rewrite Hex.
  - intros ->. split; [reflexivity|]. now apply Hleft.
Qed.

(** The witness is the best-effort case: every row and the fallback produce
    five bytes, the target is one byte, and the fallback's file is
    reported as the success. *)
Lemma fallback_after_exhausted_table_witness :
  let E := Scenario.posix_ok in
  let self := PDFCompressor medium (Some 1) in
  let out := resolved_output Scenario.report None in
  let w1 := snd (search_configs E configs Scenario.w_report Scenario.report out 1) in
  let fb := compress_with_ghostscript E self w1 Scenario.report out (Some "/screen") in
  let r := compress_file E self Scenario.w_report Scenario.report None in
  accepted_input Scenario.w_report Scenario.report = true /\
  get_file_size Scenario.w_report Scenario.report <> Some 0%N /\
  fst (search_configs E configs Scenario.w_report Scenario.report out 1) = false /\
  (snd r = snd fb
   /\ calls (snd r) =
      calls w1 ++ logged_runs E (fun exe =>
                    [GsRun (simple_cmd exe "/screen" out Scenario.report)])
   /\ (fst fb = true -> is_Some (fs (snd fb) !! out) ->
       fst r = Returned (true, out))
   /\ (fst fb = false ->
       fst r = Returned (false, Scenario.report) /\
       fs (snd r) !! out =
       after_failed_run E w1
         (fun exe => simple_cmd exe "/screen" out Scenario.report) out)).
Proof.
  cbv zeta.
  assert (Hsize : get_file_size Scenario.w_report Scenario.report <> Some 0%N)
    by (vm_compute; discriminate).
  split; [reflexivity|]. split; [exact Hsize|]. split; [reflexivity|].
  apply (fallback_after_exhausted_table Scenario.posix_ok medium
           Scenario.w_report Scenario.report None 1);
    [reflexivity | exact Hsize | reflexivity].
Defined.

(** The best-effort run evaluated: six engine runs, success, and a final
    file of five bytes for a target of one. *)
Example fallback_exceeds_target :
  let r := compress_file Scenario.posix_ok (Scenario.with_target 1)
             Scenario.w_report Scenario.report None in
  fst r = Returned (true, Scenario.report_out)
  /\ get_file_size (snd r) Scenario.report_out = Some 5%N
  /\ length (calls (snd r)) = 6%nat.
Proof. vm_compute. repeat split. Qed.

(** C5 as stated fails in its last part: the engine dies with status 1
    after writing ten bytes on every run; no row is accepted, the fallback
    fails, and its ten bytes are at the final output path. *)
Lemma failed_fallback_leaves_output_file :
  let E := Scenario.posix_crashing in
  let self := Scenario.with_target 50 in
  let out := Scenario.report_out in
  let w1 := snd (search_configs E configs Scenario.w_report Scenario.report out 50) in
  let fb := compress_with_ghostscript E self w1 Scenario.report out (Some "/screen") in
  let r := compress_file E self Scenario.w_report Scenario.report None in
  fst (search_configs E configs Scenario.w_report Scenario.report out 50) = false
  /\ fst fb = false
  /\ ~ (fst r = Returned (false, Scenario.report) /\ fs (snd r) !! out = None).
Proof.
  cbv zeta. split; [reflexivity|]. split; [reflexivity|].
  intros [_ H]. vm_compute in H. discriminate H.
Qed.

(** ** Temporary files *)

(** C3 fails on the code.  The engine dies with status 1 after writing ten
    bytes on every run: the invoker returns [False], the loop body neither
    enters its [else] branch nor its [except] clause, and the ten bytes
    written for the last row are still at [temp_report_compressed.pdf] when
    [compress_file] returns. *)
Theorem failed_runs_leave_temporary_file :
  let temp := Path ["docs"] "temp_report_compressed.pdf" in
  let r := compress_file Scenario.posix_crashing (Scenario.with_target 50)
             Scenario.w_report Scenario.report None in
  temp_output_of Scenario.report_out = temp
  /\ fs Scenario.w_report !! temp = None
  /\ fst r = Returned (false, Scenario.report)
  /\ fs (snd r) !! temp = Some (File 10 false).
Proof. cbv zeta. repeat split; vm_compute; reflexivity. Qed.

(** When the failed runs of the engine leave nothing behind, the search
    leaves no temporary file of its own. *)
Lemma search_configs_no_temporary E cs w inp out t :
  clean_on_failure E ->
  fs w !! temp_output_of out = None ->
  fs (snd (search_configs E cs w inp out t)) !! temp_output_of out = None.
Proof.
  intros Hclean. revert w.
  induction cs as [|[[[preset desc] dpi] q] cs IH]; intros w Hnone; [exact Hnone|].
  cbn [search_configs].
  pose proof (advanced_failure E w inp (temp_output_of out) preset dpi q) as Hfail.
  destruct (compress_with_ghostscript_advanced E w inp _ preset dpi q)
    as [ok w1] eqn:Hrun. cbn [fst snd] in Hfail.
  assert (Hu : fs (unlink w1 (temp_output_of out)) !! temp_output_of out = None)
    by (simpl; apply lookup_delete_eq).
  destruct ok.
  - destruct (exists_ w1 _) eqn:Hex; [|apply IH; now apply exists_None].
    destruct (get_file_size w1 _) as [size|]; [|now apply IH].
    destruct (Z.of_N size <=? t); [|now apply IH].
    destruct (rename E w1 _ out) as [w2|] eqn:Hr; [|now apply IH].
    simpl. now destruct (rename_moves E _ _ _ _ Hr (temp_output_ne out)).
  - apply IH. rewrite Hfail by reflexivity. unfold after_failed_run.
    destruct (gs_executable E); [rewrite Hclean|]; exact Hnone.
Qed.

(** ** First fit *)

(** Where [rename] cannot fail -- on POSIX, or when nothing is at the final
    output path -- the first row whose run reports success and leaves a
    candidate within the target is accepted: the candidate is moved to the
    final output path and the loop ends with this row's run as the last one
    logged, whatever rows follow. *)
Lemma search_configs_first_fit E pre c post w inp out t f :
  let w1 := snd (search_configs E pre w inp out t) in
  let a := compress_with_ghostscript_advanced E w1 inp (temp_output_of out)
             (preset_of c) (dpi_of c) (jpeg_of c) in
  fst (search_configs E pre w inp out t) = false ->
  fst a = true ->
  fs (snd a) !! temp_output_of out = Some f ->
  Z.of_N (fsize f) <= t ->
  is_windows E = false \/ fs w !! out = None ->
  search_configs E (pre ++ c :: post) w inp out t =
  (true, World (<[out := f]> (delete (temp_output_of out) (fs (snd a))))
               (calls (snd a))).
Proof.
  intros w1 a Hpre Hok Hf Hle Hren.
  rewrite search_configs_app, Hpre. fold w1.
  destruct c as [[[preset desc] dpi] q]. cbn [search_configs].
  unfold preset_of, dpi_of, jpeg_of in a. cbn [fst snd] in a. fold a.
  assert (Hout : is_windows E && exists_ (snd a) out = false).
  { destruct Hren as [->|Hnone]; [reflexivity|].
    apply andb_false_iff. right. apply exists_None.
    subst a. rewrite advanced_frame by (apply not_eq_sym, temp_output_ne).
    subst w1. pose proof (search_configs_rejected E pre w inp out t Hpre) as H.
    now rewrite H. }
  destruct a as [ok w2]. cbn [fst snd] in *. subst ok.
  assert (Hex : exists_ w2 (temp_output_of out) = true)
    by (apply exists_is_Some; rewrite Hf; eauto).
  rewrite Hex. unfold get_file_size. rewrite Hf. cbn [fmap option_fmap option_map].
  apply Z.leb_le in Hle. rewrite Hle.
  unfold rename. rewrite Hf, Hout. reflexivity.
Qed.

(** C1 fails on the code.  On Windows, with the output of an earlier run
    still at the final output path, the first row (prepress) produces a
    five-byte candidate for a target of ten bytes; [rename] raises
    [FileExistsError], the [except] clause unlinks the candidate, and the
    search goes on through all five rows and the fallback: six engine runs
    instead of one, and the file at the final output path is the one written
    by the [/screen] fallback. *)
Theorem windows_rerun_rejects_first_fit :
  let E := Scenario.windows_ok in
  let w := Scenario.w_report_rerun in
  let out := Scenario.report_out in
  let a := compress_with_ghostscript_advanced E w Scenario.report
             (temp_output_of out) "/prepress" 300 90 in
  let r := compress_file E (Scenario.with_target 10) w Scenario.report None in
  fst a = true
  /\ fs (snd a) !! temp_output_of out = Some (File 5 true)
  /\ rename E (snd a) (temp_output_of out) out = None
  /\ fst r = Returned (true, out)
  /\ calls (snd r) =
     map (config_call "gswin64c" Scenario.report out) configs
     ++ [GsRun (simple_cmd "gswin64c" "/screen" out Scenario.report)].
Proof. cbv zeta. repeat split; vm_compute; reflexivity. Qed.

(** The same run on POSIX stops at the first row. *)
Example posix_rerun_accepts_first_fit :
  let r := compress_file Scenario.posix_ok (Scenario.with_target 10)
             Scenario.w_report_rerun Scenario.report None in
  fst r = Returned (true, Scenario.report_out)
  /\ calls (snd r) =
     [config_call "gs" Scenario.report Scenario.report_out
        ("/prepress", "high quality", 300, 90)%N]
  /\ fs (snd r) !! temp_output_of Scenario.report_out = None.
Proof. cbv zeta. repeat split; vm_compute; reflexivity. Qed.

(** ** The target size on the command line *)

Section TargetBytes.

(** Truncation toward zero of a fraction: the magnitude of the quotient is
    the floor of the magnitude of the fraction. *)
Lemma quot_truncates (n : Z) (d : positive) :
  Z.abs (n ÷ Z.pos d) * Z.pos d <= Z.abs n < (Z.abs (n ÷ Z.pos d) + 1) * Z.pos d
  /\ 0 <= (n ÷ Z.pos d) * n.
Proof.
  assert (Hd : 0 < Z.pos d) by lia.
  rewrite <- (Z.quot_abs n (Z.pos d)) by lia.
  change (Z.abs (Z.pos d)) with (Z.pos d).
  rewrite Z.quot_div_nonneg by lia.
  pose proof (Z.mul_div_le (Z.abs n) (Z.pos d) Hd).
  pose proof (Z.mul_succ_div_gt (Z.abs n) (Z.pos d) Hd).
  split; [lia|].
  destruct (Z.le_ge_cases 0 n) as [Hn|Hn].
  - apply Z.mul_nonneg_nonneg; [apply Z.quot_pos; lia | exact Hn].
  - replace n with (- (- n)) at 1 by lia. rewrite Z.quot_opp_l by lia.
    assert (0 <= (- n) ÷ Z.pos d) by (apply Z.quot_pos; lia). nia.
Qed.

(** Within the binary64 range the two multiplications are exact. *)
Lemma float_mul_in_range (q : Q) :
  (Qabs q * 1048576 < inject_Z (2 ^ 1024))%Q ->
  float_mul_1024 (float_mul_1024 (FFinite q)) = FFinite (q * 1024 * 1024)%Q.
Proof.
  intros Hr. unfold Qlt in Hr. destruct q as [n d]. cbn [Qabs Qmult Qnum Qden inject_Z] in Hr.
  set (B := 2 ^ 1024) in *.
  assert (step : forall r : Q, Z.abs (Qnum r) < B * Z.pos (Qden r) ->
            Qle_bool (inject_Z B) (Qabs r) = false).
  { intros [rn rd] Hlt. cbn [Qnum Qden] in Hlt. apply not_true_is_false.
    intros H. apply Qle_bool_iff in H. unfold Qle in H.
    cbn [Qabs Qnum Qden inject_Z] in H. lia. }
  unfold float_mul_1024 at 2. fold B.
  rewrite step by (cbn [Qmult Qnum Qden]; lia).
  unfold float_mul_1024. fold B.
  rewrite step by (cbn [Qmult Qnum Qden]; lia).
  reflexivity.
Qed.

End TargetBytes.

Lemma expand_file_patterns_accepted w files l f :
  expand_file_patterns w files = Some l -> In f l -> accepted_input w f = true.
Proof.
  unfold expand_file_patterns, accepted_input.
  destruct (List.filter _ files) as [|x xs] eqn:Hfilter; [discriminate|].
  intros [= <-] Hin. rewrite <- Hfilter in Hin.
  apply filter_In in Hin as [_ Hin]. now rewrite andb_comm.
Qed.

Lemma target_bytes_of_finite (q : Q) :
  Qnum q <> 0 ->
  (Qabs q * 1048576 < inject_Z (2 ^ 1024))%Q ->
  target_bytes_of (Some (FFinite q)) =
  Returned (Some ((Qnum q * 1048576) ÷ Z.pos (Qden q))).
Proof.
  intros Hn Hr. unfold target_bytes_of, float_truthy.
  apply Z.eqb_neq in Hn. rewrite Hn. cbn [negb].
  rewrite float_mul_in_range by exact Hr.
  destruct q as [n d]. cbn [float_to_int Qmult Qnum Qden].
  rewrite !Pos.mul_1_r.
  replace (n * 1024 * 1024) with (n * 1048576) by lia. reflexivity.
Qed.

(** Which methods a call tries is decided by the target of the compressor
    alone. *)
Lemma compress_file_dispatch E lvl w inp outp :
  accepted_input w inp = true ->
  (forall t,
     snd (compress_file E (PDFCompressor lvl (Some t)) w inp outp) =
     snd (target_size_search E (PDFCompressor lvl (Some t)) w inp
            (resolved_output inp outp) t))
  /\ snd (compress_file E (PDFCompressor lvl None) w inp outp) =
     snd (single_shot E (PDFCompressor lvl None) w inp (resolved_output inp outp)).
Proof.
  intros Hacc. split; [intros t|]; rewrite compress_file_cases, Hacc; cbv zeta;
    unfold try_methods; cbn [target_size_bytes];
    (destruct (_ && _); [destruct (bool_decide _)|]; reflexivity).
Qed.

(** C6, as the code has it.  An absent option, and equally a value of zero,
    gives no target and single-shot compression.  A finite non-zero value
    within the float range gives the target [int(mb * 1024 * 1024)]: the
    value times 1048576 truncated toward zero, and the job goes through the
    target-size search.  The last part states both for [main] with one
    input. *)
Theorem target_size_option E w :
  target_bytes_of None = Returned None
  /\ (forall q, Qnum q = 0 -> target_bytes_of (Some (FFinite q)) = Returned None)
  /\ (forall q, Qnum q <> 0 ->
        (Qabs q * 1048576 < inject_Z (2 ^ 1024))%Q ->
        let t := (Qnum q * 1048576) ÷ Z.pos (Qden q) in
        target_bytes_of (Some (FFinite q)) = Returned (Some t)
        /\ (inject_Z (Z.abs t) <= Qabs q * 1048576)%Q
        /\ (Qabs q * 1048576 < inject_Z (Z.abs t + 1))%Q
        /\ 0 <= t * Qnum q)
  /\ (forall lvl inp outp, accepted_input w inp = true ->
        (forall t,
           snd (compress_file E (PDFCompressor lvl (Some t)) w inp outp) =
           snd (target_size_search E (PDFCompressor lvl (Some t)) w inp
                  (resolved_output inp outp) t))
        /\ snd (compress_file E (PDFCompressor lvl None) w inp outp) =
           snd (single_shot E (PDFCompressor lvl None) w inp
                  (resolved_output inp outp)))
  /\ (forall a inp,
        PYPDF_AVAILABLE E = true ->
        expand_file_patterns w (input a) = Some [inp] ->
        let out :=
          resolved_output inp
            (match output_dir a with
             | Some d => Some (joinpath d (stem inp +:+ "_compressed.pdf"))
             | None => output a
             end) in
        match target_bytes_of (target_size_mb a) with
        | Returned (Some t) =>
            snd (main E w a) =
            snd (target_size_search E (PDFCompressor (quality a) (Some t)) w inp out t)
        | Returned None =>
            snd (main E w a) =
            snd (single_shot E (PDFCompressor (quality a) None) w inp out)
        | Raised _ => main E w a = (1, w)
        end).
Proof.
  split; [reflexivity|]. split.
  { intros q Hq. unfold target_bytes_of, float_truthy. now rewrite Hq. }
  split.
  { intros q Hn Hr t. split; [now apply target_bytes_of_finite|].
    destruct (quot_truncates (Qnum q * 1048576) (Qden q)) as [[Hlo Hhi] Hsign].
    fold t in Hlo, Hhi, Hsign.
    rewrite Z.abs_mul in Hlo, Hhi. change (Z.abs 1048576) with 1048576 in Hlo, Hhi.
    destruct q as [n d]. cbn [Qnum Qden] in *.
    unfold Qle, Qlt. cbn [Qabs Qmult Qnum Qden inject_Z].
    rewrite !Pos.mul_1_r. repeat split; lia. }
  split; [intros lvl inp outp; apply compress_file_dispatch|].
  intros a inp Hpdf Hexp out. subst out.
  assert (Hacc : accepted_input w inp = true)
    by (apply (expand_file_patterns_accepted w (input a) [inp] inp Hexp); now left).
  unfold main. rewrite Hpdf, Hexp. cbn [negb length Nat.ltb Nat.leb andb].
  destruct (target_bytes_of (target_size_mb a)) as [[t|]|e]; [| |reflexivity];
    cbn [run_jobs].
  - destruct (compress_file_dispatch E (quality a) w inp
                (match output_dir a with
                 | Some d => Some (joinpath d (stem inp +:+ "_compressed.pdf"))
                 | None => output a
                 end) Hacc) as [H _].
    rewrite <- (H t).
    destruct (compress_file E _ w inp _) as [[[[] ?]|?] ?]; reflexivity.
  - destruct (compress_file_dispatch E (quality a) w inp
                (match output_dir a with
                 | Some d => Some (joinpath d (stem inp +:+ "_compressed.pdf"))
                 | None => output a
                 end) Hacc) as [_ H].
    rewrite <- H.
    destruct (compress_file E _ w inp _) as [[[[] ?]|?] ?]; reflexivity.
Qed.

(** The option evaluated: 1.5 MB is 1572864 bytes, a tenth of a byte less
    than a megabyte truncates to 1048575, and a negative value truncates
    toward zero. *)
Example target_bytes_examples :
  target_bytes_of (Some (FFinite (3 # 2))) = Returned (Some 1572864)
  /\ target_bytes_of (Some (FFinite (10485759 # 10485760))) = Returned (Some 1048575)
  /\ target_bytes_of (Some (FFinite (-1 # 3000000))) = Returned (Some 0)
  /\ target_bytes_of (Some FNan) = Raised ValueError
  /\ target_bytes_of (Some (FInf false)) = Raised OverflowError.
Proof. repeat split; vm_compute; reflexivity. Qed.

(** C6 as stated fails: with [--target-size-mb 0] the option is present, but
    the value is falsy; there is no target (not the target 0), and the job
    is one Ghostscript run with the preset of the level instead of the
    search. *)
Lemma zero_target_takes_single_shot :
  let a := Args [Scenario.report] None None medium (Some (FFinite 0%Q)) false in
  target_bytes_of (target_size_mb a) = Returned None
  /\ calls (snd (main Scenario.posix_ok Scenario.w_report a)) =
     [GsRun (simple_cmd "gs" "/printer" Scenario.report_out Scenario.report)]
  /\ ~ (target_bytes_of (target_size_mb a) = Returned (Some ((0 * 1048576) ÷ 1))
        /\ snd (main Scenario.posix_ok Scenario.w_report a) =
           snd (target_size_search Scenario.posix_ok (PDFCompressor medium (Some 0))
                  Scenario.w_report Scenario.report Scenario.report_out 0)).
Proof.
  cbv zeta. split; [reflexivity|]. split; [vm_compute; reflexivity|].
  intros [H _]. vm_compute in H. discriminate H.
Qed.

(** ** Batches *)

Section Batch.

Context (E : environment) (self : compressor).

(** A batch over a concatenated list is the batch over its first part
    followed, unless that raised, by the batch over the second part. *)
Lemma compress_batch_app l1 l2 w d :
  compress_batch E self w (l1 ++ l2) d =
  match compress_batch E self w l1 d with
  | (Raised e, w1) => (Raised e, w1)
  | (Returned r1, w1) =>
      match compress_batch E self w1 l2 d with
      | (Raised e, w2) => (Raised e, w2)
      | (Returned r2, w2) => (Returned (r1 ++ r2), w2)
      end
  end.
Proof.
  revert w. induction l1 as [|x l1 IH]; intros w.
  - cbn [app compress_batch].
    destruct (compress_batch E self w l2 d) as [[r2|e] w2]; reflexivity.
  - cbn [app compress_batch].
    destruct (compress_file E self w x _) as [[[ok p]|e] w1]; [|reflexivity].
    rewrite IH.
    destruct (compress_batch E self w1 l1 d) as [[r1|e] w2]; [|reflexivity].
    destruct (compress_batch E self w2 l2 d) as [[r2|e] w3]; reflexivity.
Qed.

(** A batch that returns has one result per input, in input order. *)
Lemma compress_batch_inputs l w d rs w' :
  compress_batch E self w l d = (Returned rs, w') ->
  map (fun r => snd (fst r)) rs = l.
Proof.
  revert w rs w'. induction l as [|x l IH]; intros w rs w'.
  - now intros [= <- <-].
  - cbn [compress_batch].
    destruct (compress_file E self w x _) as [[[ok p]|e] w1]; [|discriminate].
    destruct (compress_batch E self w1 l d) as [[r|e] w2] eqn:Hrest;
      [|discriminate].
    intros [= <- <-]. cbn [map fst snd]. now rewrite (IH _ _ _ Hrest).
Qed.

End Batch.

(** C8, as the code has it.  A job that ends by returning failure does not
    stop the batch: its failure is recorded under its input and the inputs
    after it are processed from the world it left; a batch that returns has
    one result per input, in input order; and with several inputs the exit
    status is 0 exactly when the batch returned and no result is a failure.
    An exception raised inside a job is not caught per job: it ends the
    batch where it stands, with the inputs after it unattempted, and the
    exit status is 1. *)
Theorem batch_partial_failure E self w inputs d :
  (forall rs w', compress_batch E self w inputs d = (Returned rs, w') ->
     map (fun r => snd (fst r)) rs = inputs)
  /\ (forall pre x post r1 w1 p w2,
        inputs = pre ++ x :: post ->
        compress_batch E self w pre d = (Returned r1, w1) ->
        compress_file E self w1 x
          (match d with
           | Some dir => Some (joinpath dir (stem x +:+ "_compressed.pdf"))
           | None => None
           end) = (Returned (false, p), w2) ->
        compress_batch E self w inputs d =
        match compress_batch E self w2 post d with
        | (Returned r2, w3) => (Returned (r1 ++ (false, x, p) :: r2), w3)
        | (Raised e, w3) => (Raised e, w3)
        end)
  /\ (forall pre x post r1 w1 e w2,
        inputs = pre ++ x :: post ->
        compress_batch E self w pre d = (Returned r1, w1) ->
        compress_file E self w1 x
          (match d with
           | Some dir => Some (joinpath dir (stem x +:+ "_compressed.pdf"))
           | None => None
           end) = (Raised e, w2) ->
        compress_batch E self w inputs d = (Raised e, w2))
  /\ (forall a, (1 < length inputs)%nat -> output_dir a = d ->
        run_jobs E self w inputs a =
        match compress_batch E self w inputs d with
        | (Returned rs, w') =>
            (if forallb (fun r => fst (fst r)) rs then 0 else 1, w')
        | (Raised _, w') => (1, w')
        end).
Proof.
  split; [intros rs w'; apply compress_batch_inputs|]. split; [|split].
  - intros pre x post r1 w1 p w2 -> Hpre Hx.
    rewrite compress_batch_app, Hpre. cbn [compress_batch]. rewrite Hx.
    destruct (compress_batch E self w2 post d) as [[r2|e] w3]; reflexivity.
  - intros pre x post r1 w1 e w2 -> Hpre Hx.
    rewrite compress_batch_app, Hpre. cbn [compress_batch]. now rewrite Hx.
  - intros a Hlen <-. unfold run_jobs.
    destruct inputs as [|x [|y l]]; cbn [length] in Hlen; try lia.
    destruct (compress_batch E self w (x :: y :: l) (output_dir a))
      as [[rs|e] w']; [|reflexivity].
    f_equal. induction rs as [|[[ok i] o] rs IH]; [reflexivity|].
    cbn [List.filter forallb fst snd]. destruct ok; cbn [negb andb];
      [exact IH | reflexivity].
Qed.

(** The batch of the specification's scenario: three inputs, the engine is
    there for the first and the third only; the report shows the failure of
    the second and the success of the others, and the status is 1. *)
Example batch_of_three :
  let engine (h : list call) (m : gmap path file) (cmd : list string) :=
    if bool_decide (last cmd = Some "docs/notes.PDF")
    then RunExit 1 Untouched
    else RunExit 0 (Wrote (File 5 true)) in
  let E := Environment false (fun _ => ProbeMissing) engine
             Scenario.library_fails true in
  let w := World (<[ Path ["docs"] "plan.pdf" := File 30 true ]>
                    (<[ Scenario.notes := File 70 true ]>
                       {[ Scenario.report := File 100 true ]})) [] in
  let inputs := [Scenario.report; Scenario.notes; Path ["docs"] "plan.pdf"] in
  fst (compress_batch E Scenario.plain w inputs None) =
    Returned [ (true, Scenario.report, Scenario.report_out);
               (false, Scenario.notes, Scenario.notes);
               (true, Path ["docs"] "plan.pdf", Path ["docs"] "plan_compressed.pdf") ]
  /\ fst (run_jobs E Scenario.plain w inputs
            (Args inputs None None medium None false)) = 1.
Proof. cbv zeta. split; vm_compute; reflexivity. Qed.

(** C8 as stated fails for an exception: the first input of the batch is an
    empty file that the engine accepts; computing the ratio divides by its
    size, the [ZeroDivisionError] leaves [compress_batch], no result is
    recorded, and the second input is never attempted -- the only run
    logged is the one for the first input and nothing was written for the
    second.  The exit status is 1. *)
Lemma exception_aborts_batch :
  let inputs := [Scenario.empty_pdf; Scenario.report] in
  let b := compress_batch Scenario.posix_ok Scenario.plain Scenario.w_batch
             inputs None in
  fst b = Raised ZeroDivisionError
  /\ calls (snd b) =
     [GsRun (simple_cmd "gs" "/printer" (Path ["docs"] "empty_compressed.pdf")
               Scenario.empty_pdf)]
  /\ fs (snd b) !! Scenario.report_out = None
  /\ ~ (exists rs, fst b = Returned rs /\ map (fun r => snd (fst r)) rs = inputs)
  /\ fst (main Scenario.posix_ok Scenario.w_batch
            (Args inputs None None medium None false)) = 1.
Proof.
  cbv zeta. split; [vm_compute; reflexivity|]. split; [vm_compute; reflexivity|].
  split; [vm_compute; reflexivity|]. split; [|vm_compute; reflexivity].
  intros (rs & H & _). vm_compute in H. discriminate H.
Qed.

(** ** Sizes as shown in the log *)

Lemma round_half_even_close (n : Z) (d : positive) :
  0 <= n ->
  0 <= round_half_even (n # d)
  /\ Z.abs (round_half_even (n # d) * Z.pos d - n) * 2 <= Z.pos d.
Proof.
  intros Hn. unfold round_half_even. cbn [Qnum Qden].
  pose proof (Z.div_mod n (Z.pos d) ltac:(lia)) as Hdm.
  pose proof (Z.mod_pos_bound n (Z.pos d) ltac:(lia)) as Hr.
  assert (Hk : 0 <= n / Z.pos d) by (apply Z.div_pos; lia).
  set (k := n / Z.pos d) in *. set (r := n mod Z.pos d) in *.
  destruct (Z.ltb_spec (2 * r) (Z.pos d)); [split; lia|].
  destruct (Z.ltb_spec (Z.pos d) (2 * r)); [split; lia|].
  destruct (Z.even k); split; lia.
Qed.

(** The denominator after [k] divisions by 1024. *)
Lemma iter_den (d : positive) (k : nat) :
  Z.pos (Nat.iter k (fun x => (x * 1024)%positive) d) = Z.pos d * 1024 ^ Z.of_nat k.
Proof.
  induction k as [|k IH].
  - simpl. lia.
  - rewrite Nat.iter_succ, Pos2Z.inj_mul, IH, Nat2Z.inj_succ, Z.pow_succ_r by lia. lia.
Qed.

(** The loop divides by 1024 until the value is below 1024 or the units run
    out; [k] counts the divisions. *)
Lemma format_size_loop_spec (units : list string) (n : Z) (d : positive) :
  0 <= n ->
  exists k, (k <= length units)%nat
    /\ format_size_loop units (n # d) =
       format_1f (n # Nat.iter k (fun x => (x * 1024)%positive) d)
       +:+ " " +:+ nth k (units ++ ["TB"]) ""
    /\ ((k < length units)%nat -> n < 1024 * (Z.pos d * 1024 ^ Z.of_nat k))
    /\ ((0 < k)%nat -> Z.pos d * 1024 ^ Z.of_nat k <= n).
Proof.
  intros Hn. revert d. induction units as [|u rest IH]; intros d.
  - exists 0%nat. split; [simpl; lia|]. split; [reflexivity|]. split; simpl; lia.
  - cbn [format_size_loop].
    destruct (Qle_bool 1024 (n # d)) eqn:Hcmp; cbn [negb].
    + apply Qle_bool_iff in Hcmp. unfold Qle in Hcmp. cbn [Qnum Qden] in Hcmp.
      change ((n # d) / 1024)%Q with (n * 1 # d * 1024). rewrite Z.mul_1_r.
      destruct (IH (d * 1024)%positive) as (k & Hk & Heq & Hlt & Hge).
      exists (S k). split; [simpl; lia|]. split; [|split].
      * rewrite Heq. rewrite Nat.iter_succ_r. reflexivity.
      * intros Hlen. rewrite Nat2Z.inj_succ, Z.pow_succ_r by lia.
        rewrite Pos2Z.inj_mul in Hlt. simpl in Hlen. specialize (Hlt ltac:(lia)). lia.
      * intros _. rewrite Nat2Z.inj_succ, Z.pow_succ_r by lia.
        destruct k as [|k].
        -- simpl. lia.
        -- rewrite Pos2Z.inj_mul in Hge. specialize (Hge ltac:(lia)). lia.
    + exists 0%nat. split; [simpl; lia|]. split; [reflexivity|]. split; [|lia].
      intros _. apply not_true_iff_false in Hcmp. rewrite Qle_bool_iff in Hcmp.
      unfold Qle in Hcmp. cbn [Qnum Qden] in Hcmp. simpl Z.of_nat. lia.
Qed.

(** X1.  [format_size], for a size below [2 ^ 53] bytes: the text is a number
    with one decimal followed by a space and one of B, KB, MB, GB, TB.  The
    unit is the [k]-th one, where the size is at least [1024 ^ k] (for KB
    and above) and, except for TB, below [1024 ^ (k + 1)]; the number shown
    is the size divided by [1024 ^ k], rounded to the nearest tenth (it is
    off by at most half a tenth). *)
Theorem format_size_unit_and_accuracy (n : N) :
  (n < 2 ^ 53)%N ->
  exists k tenths, (k <= 4)%nat /\ 0 <= tenths
    /\ format_size n = show_tenths tenths +:+ " " +:+ nth k size_units ""
    /\ ((k < 4)%nat -> Z.of_N n < 1024 ^ Z.of_nat (S k))
    /\ ((0 < k)%nat -> 1024 ^ Z.of_nat k <= Z.of_N n)
    /\ Z.abs (tenths * 1024 ^ Z.of_nat k - 10 * Z.of_N n) * 2 <= 1024 ^ Z.of_nat k.
Proof.
  intros _. unfold format_size.
  destruct (format_size_loop_spec ["B"; "KB"; "MB"; "GB"] (Z.of_N n) 1 ltac:(lia))
    as (k & Hk & Heq & Hlt & Hge).
  set (D := Nat.iter k (fun x => (x * 1024)%positive) 1%positive) in *.
  pose proof (iter_den 1 k) as HD. fold D in HD. rewrite Z.mul_1_l in HD.
  destruct (round_half_even_close (Z.of_N n * 10) (D * 1) ltac:(lia)) as [H0 Hclose].
  assert (HD1 : Z.pos (D * 1) = 1024 ^ Z.of_nat k) by (now rewrite Pos.mul_1_r).
  rewrite HD1 in Hclose.
  exists k, (round_half_even (Z.of_N n * 10 # D * 1)).
  split; [exact Hk|]. split; [exact H0|]. split; [exact Heq|].
  split; [|split].
  - intros Hk4. rewrite Nat2Z.inj_succ, Z.pow_succ_r by lia.
    simpl length in Hlt. specialize (Hlt Hk4). lia.
  - intros Hk0. specialize (Hge Hk0). lia.
  - replace (10 * Z.of_N n) with (Z.of_N n * 10) by lia. exact Hclose.
Qed.

Lemma format_size_unit_and_accuracy_witness :
  (1280 < 2 ^ 53)%N /\
  exists k tenths, (k <= 4)%nat /\ 0 <= tenths
    /\ format_size 1280 = show_tenths tenths +:+ " " +:+ nth k size_units ""
    /\ ((k < 4)%nat -> Z.of_N 1280 < 1024 ^ Z.of_nat (S k))
    /\ ((0 < k)%nat -> 1024 ^ Z.of_nat k <= Z.of_N 1280)
    /\ Z.abs (tenths * 1024 ^ Z.of_nat k - 10 * Z.of_N 1280) * 2 <= 1024 ^ Z.of_nat k.
Proof.
  split; [reflexivity|].
  apply (format_size_unit_and_accuracy 1280). reflexivity.
Defined.

(** Sizes as the log shows them: whole bytes, a tie rounded to the even
    tenth (1280 bytes are 1.25 KB), and a size just below a megabyte shown
    as 1024.0 KB. *)
Example format_size_examples :
  format_size 0 = "0.0 B" /\ format_size 1023 = "1023.0 B"
  /\ format_size 1024 = "1.0 KB" /\ format_size 1280 = "1.2 KB"
  /\ format_size 1048575 = "1024.0 KB" /\ format_size 1572864 = "1.5 MB"
  /\ format_size (5 * 1024 ^ 4) = "5.0 TB".
Proof. repeat split; vm_compute; reflexivity. Qed.

(** ** Which names are PDF names *)

Lemma rfind_dot_app (a b : string) :
  rfind_dot (a +:+ b) =
  match rfind_dot b with
  | Some i => Some (String.length a + i)%nat
  | None => rfind_dot a
  end.
Proof.
  induction a as [|c a IH].
  - change ("" +:+ b) with b. now destruct (rfind_dot b).
  - change (String c a +:+ b) with (String c (a +:+ b)). cbn [rfind_dot].
    rewrite IH. destruct (rfind_dot b); reflexivity.
Qed.

Lemma lower_ascii_dot (c : ascii) :
  lower_ascii c = "."%char -> c = "."%char.
Proof.
  destruct c as [[] [] [] [] [] [] [] []]; vm_compute; intros H;
    first [reflexivity | discriminate H].
Qed.

Lemma lower_length (s : string) : String.length (lower s) = String.length s.
Proof. induction s as [|c s IH]; simpl; congruence. Qed.

(** An extension that lowers to [.pdf] is a dot followed by three characters
    that are not dots. *)
Lemma pdf_extension_shape (ext : string) :
  lower ext = ".pdf" -> String.length ext = 4%nat /\ rfind_dot ext = Some 0%nat.
Proof.
  intros H. split; [now rewrite <- lower_length, H|].
  destruct ext as [|c0 [|c1 [|c2 [|c3 [|c4 e]]]]]; try discriminate H.
  cbn [lower] in H. injection H as H0 H1 H2 H3.
  apply lower_ascii_dot in H0. subst c0. cbn [rfind_dot].
  assert (Hnd : forall c x, lower_ascii c = x -> x <> "."%char ->
                            Ascii.eqb c "." = false).
  { intros c x Hc Hx. apply Ascii.eqb_neq. intros ->. apply Hx.
    rewrite <- Hc. reflexivity. }
  rewrite (Hnd c3 _ H3), (Hnd c2 _ H2), (Hnd c1 _ H1) by discriminate.
  reflexivity.
Qed.

Lemma substring_app_l (a b : string) :
  substring 0 (String.length a) (a +:+ b) = a.
Proof.
  induction a as [|c a IH].
  - change ("" +:+ b) with b. destruct b; reflexivity.
  - change (String c a +:+ b) with (String c (a +:+ b)). simpl. now rewrite IH.
Qed.

Lemma substring_app_r (a b : string) :
  substring (String.length a) (String.length b) (a +:+ b) = b.
Proof.
  induction a as [|c a IH].
  - change ("" +:+ b) with b. apply substring_full.
  - change (String c a +:+ b) with (String c (a +:+ b)). simpl. exact IH.
Qed.

Lemma length_substring_0 (s : string) (i : nat) :
  (i <= String.length s)%nat -> String.length (substring 0 i s) = i.
Proof.
  revert i. induction s as [|c s IH]; intros [|i] Hi; simpl in *;
    try reflexivity; try lia.
  rewrite IH; lia.
Qed.

(** The suffix and the stem of a name made of a non-empty base and an
    extension that lowers to [.pdf]. *)
Lemma pdf_name_parts (d : list string) (base ext : string) :
  base <> "" -> lower ext = ".pdf" ->
  suffix (Path d (base +:+ ext)) = ext /\ stem (Path d (base +:+ ext)) = base.
Proof.
  intros Hbase Hext. destruct (pdf_extension_shape ext Hext) as [Hlen Hdot].
  unfold suffix, stem. cbn [name]. rewrite rfind_dot_app, Hdot, Nat.add_0_r.
  assert (Hpos : (0 < String.length base)%nat)
    by (destruct base; [congruence | simpl; lia]).
  unfold splits_at. rewrite length_append_string, Hlen.
  replace (0 <? String.length base)%nat with true
    by (symmetry; apply Nat.ltb_lt; lia).
  replace (String.length base <? String.length base + 4 - 1)%nat with true
    by (symmetry; apply Nat.ltb_lt; lia).
  cbn [andb]. split.
  - replace (String.length base + 4 - String.length base)%nat
      with (String.length ext) by lia.
    apply substring_app_r.
  - apply substring_app_l.
Qed.

(** An accepted input has a name made of a non-empty base, which is its
    stem, and an extension that lowers to [.pdf]. *)
Lemma accepted_input_parts (w : world) (p : path) :
  accepted_input w p = true ->
  exists base ext, name p = base +:+ ext /\ base <> ""
                   /\ lower ext = ".pdf" /\ stem p = base.
Proof.
  unfold accepted_input. rewrite andb_true_iff, String.eqb_eq. intros [_ H].
  exists (stem p), (suffix p).
  assert (Hne : suffix p <> "") by (intros E0; rewrite E0 in H; discriminate H).
  split; [now apply stem_suffix|]. split; [|split; [exact H|reflexivity]].
  revert Hne. unfold suffix, stem.
  destruct (rfind_dot (name p)) as [i|]; [|congruence].
  destruct (splits_at (name p) i) eqn:Hs; [|congruence].
  intros _ Hnil. unfold splits_at in Hs. apply andb_prop in Hs as [Hi Hj].
  apply Nat.ltb_lt in Hi, Hj. apply (f_equal String.length) in Hnil.
  rewrite length_substring_0 in Hnil by lia. simpl in Hnil. lia.
Qed.

(** X2.  The two tests at the head of [compress_file] accept a path exactly
    when a file is there and its name is a non-empty base followed by an
    extension that is [.pdf] in some letter case; the stem used for the
    output name is then that base.  A file named just [.pdf], or a name
    without extension, is refused. *)
Theorem accepted_input_iff (w : world) (p : path) :
  accepted_input w p = true <->
  is_Some (fs w !! p) /\
  exists base ext, name p = base +:+ ext /\ base <> ""
                   /\ lower ext = ".pdf" /\ stem p = base.
Proof.
  split.
  - intros Hacc. split; [|now apply (accepted_input_parts w p)].
    unfold accepted_input in Hacc. apply andb_prop in Hacc as [Hex _].
    now apply exists_is_Some.
  - intros [Hex (base & ext & Hname & Hbase & Hext & _)].
    unfold accepted_input. apply andb_true_intro. split.
    + now apply exists_is_Some.
    + apply String.eqb_eq. destruct p as [d n]. cbn [name] in Hname. subst n.
      now destruct (pdf_name_parts d base ext Hbase Hext) as [-> _].
Qed.

(** What the tests refuse: a hidden file named [.pdf], a name without
    extension, another extension; and what they accept. *)
Example accepted_input_examples :
  let w := World (<[ Path [] ".pdf" := File 1 true ]>
                    (<[ Path [] "paper" := File 1 true ]>
                       (<[ Path [] "paper.pdf.txt" := File 1 true ]>
                          (<[ Path [] "a.b.PdF" := File 1 true ]> ∅)))) [] in
  accepted_input w (Path [] ".pdf") = false
  /\ accepted_input w (Path [] "paper") = false
  /\ accepted_input w (Path [] "paper.pdf.txt") = false
  /\ accepted_input w (Path [] "a.b.PdF") = true
  /\ accepted_input w (Path [] "missing.pdf") = false.
Proof. cbv zeta. repeat split; vm_compute; reflexivity. Qed.

(** ** What a call leaves alone *)

(** The output name derived from an accepted input differs from the input's
    own name, and so does its temporary sibling. *)
Lemma derived_output_ne_input (w : world) (inp : path) (d : list string) :
  accepted_input w inp = true ->
  inp <> joinpath d (stem inp +:+ "_compressed.pdf")
  /\ inp <> temp_output_of (joinpath d (stem inp +:+ "_compressed.pdf")).
Proof.
  intros Hacc. apply accepted_input_parts in Hacc as (base & ext & Hn & _ & Hext & Hstem).
  assert (Hlen : String.length (name inp) = (String.length (stem inp) + 4)%nat).
  { rewrite Hn, Hstem, length_append_string.
    now rewrite <- (lower_length ext), Hext. }
  split; intros Heq; apply (f_equal name) in Heq;
    apply (f_equal String.length) in Heq; rewrite Hlen in Heq;
    unfold temp_output_of, joinpath in Heq; cbn [name parent] in Heq;
    rewrite !length_append_string in Heq; simpl in Heq; lia.
Qed.

(** X3.  With the default output path, and with an output path derived
    from an output directory as [compress_batch] and [main] derive it,
    [compress_file] leaves the input file itself exactly as it was, whatever
    the engine and the library do. *)
Theorem input_file_untouched E self w inp :
  fs (snd (compress_file E self w inp None)) !! inp = fs w !! inp
  /\ forall d,
       fs (snd (compress_file E self w inp
                  (Some (joinpath d (stem inp +:+ "_compressed.pdf"))))) !! inp
       = fs w !! inp.
Proof.
  assert (H : forall outp d,
             resolved_output inp outp = joinpath d (stem inp +:+ "_compressed.pdf") ->
             fs (snd (compress_file E self w inp outp)) !! inp = fs w !! inp).
  { intros outp d Hout. destruct (accepted_input w inp) eqn:Hacc.
    - destruct (derived_output_ne_input w inp d Hacc) as [Ho Ht].
      apply compress_file_frame; now rewrite Hout.
    - rewrite compress_file_cases, Hacc. reflexivity. }
  split; [apply (H None (parent inp)); reflexivity|].
  intros d. apply (H _ d). reflexivity.
Qed.

Lemma compressed_name_frame E self w inp d p :
  (forall x, name p <> x +:+ "_compressed.pdf") ->
  fs (snd (compress_file E self w inp
             (match d with
              | Some dir => Some (joinpath dir (stem inp +:+ "_compressed.pdf"))
              | None => None
              end))) !! p = fs w !! p.
Proof.
  intros Hp.
  assert (H : forall outp dir,
             resolved_output inp outp = joinpath dir (stem inp +:+ "_compressed.pdf") ->
             fs (snd (compress_file E self w inp outp)) !! p = fs w !! p).
  { intros outp dir Hout. apply compress_file_frame; rewrite Hout; intros ->.
    - apply (Hp (stem inp)). reflexivity.
    - apply (Hp ("temp_" +:+ stem inp)). reflexivity. }
  destruct d as [dir|]; [apply (H _ dir) | apply (H _ (parent inp))]; reflexivity.
Qed.

(** X4.  A batch, and [main] when no [--output] is given, changes no file
    whose name does not end in [_compressed.pdf]: every written, renamed or
    unlinked path is an output path or its [temp_] sibling, both of which
    carry that ending. *)
Theorem only_compressed_names_change E self w inputs d p :
  (forall x, name p <> x +:+ "_compressed.pdf") ->
  fs (snd (compress_batch E self w inputs d)) !! p = fs w !! p
  /\ forall a, output a = None -> fs (snd (main E w a)) !! p = fs w !! p.
Proof.
  intros Hp.
  assert (Hbatch : forall self l w d,
            fs (snd (compress_batch E self w l d)) !! p = fs w !! p).
  { clear self w inputs d. intros self l.
    induction l as [|x l IH]; intros w d; [reflexivity|].
    cbn [compress_batch].
    pose proof (compressed_name_frame E self w x d p Hp) as Hx.
    destruct (compress_file E self w x _) as [[[ok q]|e] w1]; cbn [snd] in *;
      [|exact Hx].
    specialize (IH w1 d).
    destruct (compress_batch E self w1 l d) as [[rs|e] w2]; cbn [snd] in *;
      congruence. }
  split; [apply Hbatch|].
  intros a Hout. unfold main.
  destruct (negb (PYPDF_AVAILABLE E)); [reflexivity|].
  destruct (expand_file_patterns w (input a)) as [files|]; [|reflexivity].
  destruct (_ && _); [reflexivity|].
  destruct (target_bytes_of (target_size_mb a)) as [tb|e]; [|reflexivity].
  unfold run_jobs. rewrite Hout.
  assert (Hb := Hbatch (PDFCompressor (quality a) tb) files w (output_dir a)).
  destruct files as [|x [|y l]].
  - reflexivity.
  - pose proof (compressed_name_frame E (PDFCompressor (quality a) tb) w x
                  (output_dir a) p Hp) as Hx.
    destruct (output_dir a);
      destruct (compress_file E _ w x _) as [[[[] q]|e] w1]; exact Hx.
  - destruct (compress_batch E _ w (x :: y :: l) (output_dir a))
      as [[rs|e] w']; [|exact Hb].
    destruct (List.filter _ rs); exact Hb.
Qed.

Lemma only_compressed_names_change_witness :
  (forall x, name Scenario.report <> x +:+ "_compressed.pdf") /\
  (fs (snd (compress_batch Scenario.posix_ok (Scenario.with_target 1)
              Scenario.w_batch [Scenario.notes; Scenario.report] None))
     !! Scenario.report = fs Scenario.w_batch !! Scenario.report
   /\ forall a, output a = None ->
        fs (snd (main Scenario.posix_ok Scenario.w_batch a)) !! Scenario.report
        = fs Scenario.w_batch !! Scenario.report).
Proof.
  assert (H : forall x, name Scenario.report <> x +:+ "_compressed.pdf").
  { intros x Hx. apply (f_equal String.length) in Hx.
    rewrite length_append_string in Hx. simpl in Hx. lia. }
  split; [exact H|].
  apply (only_compressed_names_change Scenario.posix_ok (Scenario.with_target 1)
           Scenario.w_batch [Scenario.notes; Scenario.report] None
           Scenario.report H).
Defined.

(** X5.  When [compress_file] raises the [ZeroDivisionError] of the ratio,
    the input had passed both tests and is empty (0 bytes), a method had
    reported success and a file is at the output path: the division by the
    original size is reached only on the success path, and only a 0-byte
    input makes it fail. *)
Theorem division_by_zero_means_empty_input E self w inp outp :
  fst (compress_file E self w inp outp) = Raised ZeroDivisionError ->
  accepted_input w inp = true
  /\ get_file_size w inp = Some 0%N
  /\ fst (try_methods E self w inp (resolved_output inp outp)) = true
  /\ is_Some (fs (snd (compress_file E self w inp outp))
                !! resolved_output inp outp).
Proof.
  rewrite compress_file_cases.
  destruct (accepted_input w inp); [|discriminate].
  cbv zeta.
  destruct (try_methods E self w inp (resolved_output inp outp)) as [s0 w1].
  cbn [fst snd].
  destruct s0; destruct (exists_ w1 (resolved_output inp outp)) eqn:Hex;
    cbn [andb fst snd]; try discriminate.
  destruct (bool_decide (get_file_size w inp = Some 0%N)) eqn:Hz;
    cbn [fst snd]; [|discriminate].
  apply bool_decide_eq_true in Hz. apply exists_is_Some in Hex. intros _. auto.
Qed.

Lemma division_by_zero_means_empty_input_witness :
  let E := Scenario.posix_ok in
  let r := compress_file E Scenario.plain Scenario.w_batch Scenario.empty_pdf None in
  fst r = Raised ZeroDivisionError /\
  (accepted_input Scenario.w_batch Scenario.empty_pdf = true
   /\ get_file_size Scenario.w_batch Scenario.empty_pdf = Some 0%N
   /\ fst (try_methods E Scenario.plain Scenario.w_batch Scenario.empty_pdf
             (resolved_output Scenario.empty_pdf None)) = true
   /\ is_Some (fs (snd r) !! resolved_output Scenario.empty_pdf None)).
Proof.
  cbv zeta. split; [vm_compute; reflexivity|].
  apply (division_by_zero_means_empty_input Scenario.posix_ok Scenario.plain
           Scenario.w_batch Scenario.empty_pdf None).
  vm_compute. reflexivity.
Defined.

(** ** The search, where it works *)

(** X6.  Where [rename] cannot fail -- on POSIX, or with nothing at the
    final output path -- and for an accepted, non-empty input: if the rows
    before a row of the table are all rejected, and the run for that row
    reports success and leaves a candidate within the target, then
    [compress_file] reports success with the final output path, the
    candidate is the file at that path, the temporary path is empty, and the
    run for that row is the last one logged: no later row and no fallback is
    run. *)
Theorem first_fit_is_reported E lvl w inp outp t pre c post f :
  let self := PDFCompressor lvl (Some t) in
  let out := resolved_output inp outp in
  let w1 := snd (search_configs E pre w inp out t) in
  let a := compress_with_ghostscript_advanced E w1 inp (temp_output_of out)
             (preset_of c) (dpi_of c) (jpeg_of c) in
  configs = pre ++ c :: post ->
  accepted_input w inp = true ->
  get_file_size w inp <> Some 0%N ->
  fst (search_configs E pre w inp out t) = false ->
  fst a = true ->
  fs (snd a) !! temp_output_of out = Some f ->
  Z.of_N (fsize f) <= t ->
  is_windows E = false \/ fs w !! out = None ->
  compress_file E self w inp outp =
  (Returned (true, out),
   World (<[out := f]> (delete (temp_output_of out) (fs (snd a)))) (calls (snd a))).
Proof.
  intros self out w1 a Hcfg Hacc Hsize Hpre Hok Hf Hle Hren.
  rewrite compress_file_cases, Hacc. cbv zeta. fold out.
  unfold try_methods, self. cbn [target_size_bytes]. unfold target_size_search.
  rewrite Hcfg.
  rewrite (search_configs_first_fit E pre c post w inp out t f Hpre Hok Hf Hle Hren).
  fold w1 a. cbn [fst snd andb].
  replace (exists_ _ out) with true.
  - now rewrite (bool_decide_eq_false_2 _ Hsize).
  - symmetry. apply exists_is_Some. cbn [fs]. rewrite lookup_insert_eq. eauto.
Qed.

Lemma first_fit_is_reported_witness :
  let E := Scenario.posix_ok in
  let w := Scenario.w_report_rerun in
  let inp := Scenario.report in
  let c := ("/prepress", "high quality", 300, 90)%N in
  let post := [ ("/printer", "good quality", 200, 80);
                ("/printer", "balanced", 150, 75);
                ("/ebook", "compact", 150, 70);
                ("/screen", "minimal", 100, 60) ]%N in
  let f := File 5 true in
  let self := PDFCompressor medium (Some 10) in
  let out := resolved_output inp None in
  let w1 := snd (search_configs E [] w inp out 10) in
  let a := compress_with_ghostscript_advanced E w1 inp (temp_output_of out)
             (preset_of c) (dpi_of c) (jpeg_of c) in
  configs = [] ++ c :: post /\
  accepted_input w inp = true /\
  get_file_size w inp <> Some 0%N /\
  fst (search_configs E [] w inp out 10) = false /\
  fst a = true /\
  fs (snd a) !! temp_output_of out = Some f /\
  Z.of_N (fsize f) <= 10 /\
  (is_windows E = false \/ fs w !! out = None) /\
  compress_file E self w inp None =
  (Returned (true, out),
   World (<[out := f]> (delete (temp_output_of out) (fs (snd a)))) (calls (snd a))).
Proof.
  cbv zeta.
  assert (Hsize : get_file_size Scenario.w_report_rerun Scenario.report <> Some 0%N)
    by (vm_compute; discriminate).
  assert (Hf : fs (snd (compress_with_ghostscript_advanced Scenario.posix_ok
                          (snd (search_configs Scenario.posix_ok []
                                  Scenario.w_report_rerun Scenario.report
                                  (resolved_output Scenario.report None) 10))
                          Scenario.report
                          (temp_output_of (resolved_output Scenario.report None))
                          (preset_of ("/prepress", "high quality", 300, 90)%N)
                          (dpi_of ("/prepress", "high quality", 300, 90)%N)
                          (jpeg_of ("/prepress", "high quality", 300, 90)%N)))
               !! temp_output_of (resolved_output Scenario.report None)
               = Some (File 5 true))
    by (vm_compute; reflexivity).
  assert (Hle : Z.of_N (fsize (File 5 true)) <= 10) by (simpl; lia).
  repeat (split; [first [reflexivity | exact Hsize | exact Hf | exact Hle
                        | left; reflexivity]|]).
  apply (first_fit_is_reported Scenario.posix_ok medium Scenario.w_report_rerun
           Scenario.report None 10 []
           ("/prepress", "high quality", 300, 90)%N
           [ ("/printer", "good quality", 200, 80);
             ("/printer", "balanced", 150, 75);
             ("/ebook", "compact", 150, 70);
             ("/screen", "minimal", 100, 60) ]%N
           (File 5 true));
    first [reflexivity | exact Hsize | exact Hf | exact Hle | left; reflexivity].
Defined.

(** X7.  For an accepted, non-empty input: whenever the loop over the table
    accepts a row, [compress_file] reports success with the final output
    path, stops there (the fallback is not run: the world is the one the
    loop left), the file at the final output path is within the target, and
    nothing is at the temporary path. *)
Theorem accepted_candidate_meets_target E lvl w inp outp t :
  let self := PDFCompressor lvl (Some t) in
  let out := resolved_output inp outp in
  let r := compress_file E self w inp outp in
  accepted_input w inp = true ->
  get_file_size w inp <> Some 0%N ->
  fst (search_configs E configs w inp out t) = true ->
  fst r = Returned (true, out)
  /\ snd r = snd (search_configs E configs w inp out t)
  /\ exists f, fs (snd r) !! out = Some f
               /\ Z.of_N (fsize f) <= t
               /\ fs (snd r) !! temp_output_of out = None.
Proof.
  intros self out r Hacc Hsize Hloop. subst r.
  rewrite compress_file_cases, Hacc. cbv zeta. fold out.
  unfold try_methods, self. cbn [target_size_bytes]. unfold target_size_search.
  destruct (search_configs_accepted E configs w inp out t Hloop)
    as (f & Hf & Hle & Htemp).
  destruct (search_configs E configs w inp out t) as [ok w1].
  cbn [fst snd] in *. subst ok. cbn [fst snd andb].
  replace (exists_ w1 out) with true
    by (symmetry; apply exists_is_Some; rewrite Hf; eauto).
  rewrite (bool_decide_eq_false_2 _ Hsize). cbn [fst snd].
  split; [reflexivity|]. split; [reflexivity|]. exists f. auto.
Qed.

Lemma accepted_candidate_meets_target_witness :
  let E := Scenario.posix_ok in
  let self := PDFCompressor medium (Some 10) in
  let out := resolved_output Scenario.report None in
  let r := compress_file E self Scenario.w_report Scenario.report None in
  accepted_input Scenario.w_report Scenario.report = true /\
  get_file_size Scenario.w_report Scenario.report <> Some 0%N /\
  fst (search_configs E configs Scenario.w_report Scenario.report out 10) = true /\
  (fst r = Returned (true, out)
   /\ snd r = snd (search_configs E configs Scenario.w_report Scenario.report out 10)
   /\ exists f, fs (snd r) !! out = Some f
                /\ Z.of_N (fsize f) <= 10
                /\ fs (snd r) !! temp_output_of out = None).
Proof.
  cbv zeta.
  assert (Hsize : get_file_size Scenario.w_report Scenario.report <> Some 0%N)
    by (vm_compute; discriminate).
  split; [reflexivity|]. split; [exact Hsize|]. split; [reflexivity|].
  apply (accepted_candidate_meets_target Scenario.posix_ok medium
           Scenario.w_report Scenario.report None 10);
    [reflexivity | exact Hsize | reflexivity].
Defined.

(** X8.  When failed engine runs leave nothing at the path they were
    writing, and no file is at the job's temporary path before the call,
    none is there after it: every candidate the loop creates is renamed or
    unlinked, and nothing else writes that path. *)
Theorem no_temporary_left E self w inp outp :
  let temp := temp_output_of (resolved_output inp outp) in
  clean_on_failure E ->
  fs w !! temp = None ->
  fs (snd (compress_file E self w inp outp)) !! temp = None.
Proof.
  intros temp Hclean Hnone. subst temp.
  set (out := resolved_output inp outp) in *.
  rewrite compress_file_cases. destruct (accepted_input w inp); [|exact Hnone].
  cbv zeta. fold out.
  assert (Htry : fs (snd (try_methods E self w inp out)) !! temp_output_of out = None).
  { unfold try_methods. destruct (target_size_bytes self) as [t|].
    - unfold target_size_search.
      pose proof (search_configs_no_temporary E configs w inp out t Hclean Hnone) as H.
      destruct (search_configs E configs w inp out t) as [[] w1]; cbn [snd] in *;
        [exact H|].
      rewrite simple_frame by apply temp_output_ne. exact H.
    - rewrite single_shot_frame by apply temp_output_ne. exact Hnone. }
  destruct (_ && _); [destruct (bool_decide _)|]; exact Htry.
Qed.

Lemma no_temporary_left_witness :
  let temp := temp_output_of (resolved_output Scenario.report None) in
  clean_on_failure Scenario.posix_ok /\
  fs Scenario.w_report !! temp = None /\
  fs (snd (compress_file Scenario.posix_ok (Scenario.with_target 1)
             Scenario.w_report Scenario.report None)) !! temp = None.
Proof.
  cbv zeta.
  assert (Hclean : clean_on_failure Scenario.posix_ok)
    by (intros h m cmd; reflexivity).
  split; [exact Hclean|]. split; [reflexivity|].
  apply (no_temporary_left Scenario.posix_ok (Scenario.with_target 1)
           Scenario.w_report Scenario.report None Hclean).
  reflexivity.
Defined.

(** ** Cost and results *)

Lemma length_logged_runs E (runs : string -> list call) (n : nat) :
  (forall exe, length (runs exe) <= n)%nat ->
  (length (logged_runs E runs) <= n)%nat.
Proof.
  intros H. unfold logged_runs. destruct (gs_executable E); [apply H|simpl; lia].
Qed.

Lemma compress_file_calls_bounded E self w inp outp :
  exists l, calls (snd (compress_file E self w inp outp)) = calls w ++ l
            /\ (length l <= match target_size_bytes self with
                            | Some _ => 6
                            | None => 2
                            end)%nat.
Proof.
  rewrite compress_file_cases.
  destruct (accepted_input w inp);
    [|exists []; rewrite app_nil_r; split; [reflexivity|destruct (target_size_bytes self); simpl; lia]].
  cbv zeta. set (out := resolved_output inp outp).
  assert (H : exists l, calls (snd (try_methods E self w inp out)) = calls w ++ l
            /\ (length l <= match target_size_bytes self with
                            | Some _ => 6
                            | None => 2
                            end)%nat).
  { unfold try_methods. destruct (target_size_bytes self) as [t|].
    - unfold target_size_search.
      destruct (search_configs_calls E configs w inp out t) as (k & Hk & _ & Hc).
      destruct (search_configs E configs w inp out t) as [ok w1]. cbn [snd] in Hc.
      assert (Hlen : (length (logged_runs E (fun exe =>
                        map (config_call exe inp out) (take k configs))) <= 5)%nat).
      { apply length_logged_runs. intros exe.
        rewrite length_map, length_take. simpl in *. lia. }
      destruct ok; cbn [snd].
      + eexists. split; [exact Hc|lia].
      + rewrite simple_calls, Hc, <- app_assoc. eexists. split; [reflexivity|].
        rewrite length_app.
        pose proof (length_logged_runs E
          (fun exe => [GsRun (simple_cmd exe "/screen" out inp)]) 1
          ltac:(intros; simpl; lia)). lia.
    - unfold single_shot.
      pose proof (simple_calls E self w inp out None) as Hc.
      pose proof (length_logged_runs E
          (fun exe => [GsRun (simple_cmd exe (gs_settings (compression_level self))
                                out inp)]) 1 ltac:(intros; simpl; lia)) as Hlen.
      destruct (compress_with_ghostscript E self w inp out None) as [ok w1].
      cbn [snd] in Hc.
      destruct ok; [eexists; split; [exact Hc|lia]|].
      destruct (PYPDF_AVAILABLE E); [|eexists; split; [exact Hc|lia]].
      rewrite pypdf_calls, Hc, <- app_assoc. eexists. split; [reflexivity|].
      rewrite length_app. simpl. lia. }
  destruct (_ && _); [destruct (bool_decide _)|]; exact H.
Qed.

(** X9.  A call of [compress_file] only appends to the invocation log, and
    it appends at most six entries with a target size (one engine run per row
    of the table and the fallback) and at most two without (one engine run
    and one library call).  A batch over [n] inputs appends at most [6 * n]
    entries. *)
Theorem invocations_bounded E self w inp outp inputs d :
  (exists l, calls (snd (compress_file E self w inp outp)) = calls w ++ l
             /\ (length l <= match target_size_bytes self with
                             | Some _ => 6
                             | None => 2
                             end)%nat)
  /\ exists l, calls (snd (compress_batch E self w inputs d)) = calls w ++ l
               /\ (length l <= 6 * length inputs)%nat.
Proof.
  split; [apply compress_file_calls_bounded|].
  revert w. induction inputs as [|x l IH]; intros w.
  - exists []. rewrite app_nil_r. split; [reflexivity|simpl; lia].
  - cbn [compress_batch].
    destruct (compress_file_calls_bounded E self w x
                (match d with
                 | Some dir => Some (joinpath dir (stem x +:+ "_compressed.pdf"))
                 | None => None
                 end)) as (l1 & Hc1 & Hl1).
    assert (Hl1' : (length l1 <= 6)%nat)
      by (destruct (target_size_bytes self); lia).
    destruct (compress_file E self w x _) as [[[ok q]|e] w1]; cbn [snd] in Hc1.
    + destruct (IH w1) as (l2 & Hc2 & Hl2).
      exists (l1 ++ l2).
      destruct (compress_batch E self w1 l d) as [[rs|e] w2]; cbn [snd] in *;
        (split; [now rewrite Hc2, Hc1, app_assoc
                |rewrite length_app; simpl; lia]).
    + exists l1. split; [exact Hc1|simpl; lia].
Qed.

Lemma negative_target_rejects E cs w inp out t :
  t < 0 -> fst (search_configs E cs w inp out t) = false.
Proof.
  intros Ht. revert w.
  induction cs as [|[[[preset desc] dpi] q] cs IH]; intros w; [reflexivity|].
  cbn [search_configs].
  destruct (compress_with_ghostscript_advanced E w inp _ preset dpi q)
    as [ok w1].
  destruct ok; [|apply IH].
  destruct (exists_ w1 _); [|apply IH].
  destruct (get_file_size w1 _) as [size|]; [|apply IH].
  destruct (Z.leb_spec (Z.of_N size) t); [lia|apply IH].
Qed.

(** X10.  With a negative target no candidate can be accepted: the loop runs
    the engine for every row of the table (when an executable name is
    there), accepts nothing and leaves the final output path as it found it,
    so [compress_file] always goes on to the [/screen] fallback. *)
Theorem negative_target_runs_whole_table E cs w inp out t :
  t < 0 ->
  fst (search_configs E cs w inp out t) = false
  /\ calls (snd (search_configs E cs w inp out t)) =
     calls w ++ logged_runs E (fun exe => map (config_call exe inp out) cs)
  /\ fs (snd (search_configs E cs w inp out t)) !! out = fs w !! out.
Proof.
  intros Ht. pose proof (negative_target_rejects E cs w inp out t Ht) as Hrej.
  split; [exact Hrej|]. split.
  - destruct (search_configs_calls E cs w inp out t) as (k & _ & Hall & Hc).
    rewrite (Hall Hrej) in Hc. now rewrite firstn_all in Hc.
  - now apply search_configs_rejected.
Qed.

Lemma negative_target_runs_whole_table_witness :
  let E := Scenario.posix_ok in
  let out := Scenario.report_out in
  -1048576 < 0 /\
  (fst (search_configs E configs Scenario.w_report Scenario.report out (-1048576)) = false
   /\ calls (snd (search_configs E configs Scenario.w_report Scenario.report out
                    (-1048576))) =
      calls Scenario.w_report
      ++ logged_runs E (fun exe => map (config_call exe Scenario.report out) configs)
   /\ fs (snd (search_configs E configs Scenario.w_report Scenario.report out
                 (-1048576))) !! out = fs Scenario.w_report !! out).
Proof.
  cbv zeta. split; [lia|].
  apply (negative_target_runs_whole_table Scenario.posix_ok configs
           Scenario.w_report Scenario.report Scenario.report_out (-1048576)).
  lia.
Defined.

(** What a job that returns names: the output path on success, the input
    path on failure. *)
Lemma compress_file_returns E self w inp outp ok p :
  fst (compress_file E self w inp outp) = Returned (ok, p) ->
  p = if ok then resolved_output inp outp else inp.
Proof.
  rewrite compress_file_cases. destruct (accepted_input w inp);
    [|now intros [= <- <-]].
  cbv zeta. destruct (_ && _); [destruct (bool_decide _)|]; cbn [fst];
    try discriminate; now intros [= <- <-].
Qed.

(** X11.  A batch that returns has one result per input, each naming where
    the output is: the path derived from the output directory (or from the
    input's own directory) and the input's stem for a success, the input
    path itself for a failure. *)
Theorem batch_results_name_outputs E self w inputs d rs w' :
  compress_batch E self w inputs d = (Returned rs, w') ->
  length rs = length inputs
  /\ Forall (fun r : bool * path * path =>
               snd r =
               if fst (fst r)
               then joinpath (match d with
                              | Some dir => dir
                              | None => parent (snd (fst r))
                              end)
                      (stem (snd (fst r)) +:+ "_compressed.pdf")
               else snd (fst r)) rs.
Proof.
  revert w rs w'. induction inputs as [|x l IH]; intros w rs w'.
  - intros [= <- <-]. split; [reflexivity|constructor].
  - cbn [compress_batch].
    pose proof (compress_file_returns E self w x
                  (match d with
                   | Some dir => Some (joinpath dir (stem x +:+ "_compressed.pdf"))
                   | None => None
                   end)) as Hx.
    destruct (compress_file E self w x _) as [[[ok q]|e] w1]; cbn [fst] in Hx;
      [|discriminate].
    specialize (Hx ok q eq_refl).
    destruct (compress_batch E self w1 l d) as [[rs1|e] w2] eqn:Hrest;
      [|discriminate].
    intros [= <- <-]. destruct (IH _ _ _ Hrest) as [Hlen Hall].
    split; [simpl; now rewrite Hlen|].
    constructor; [|exact Hall]. cbn [fst snd].
    rewrite Hx. destruct ok; [destruct d|]; reflexivity.
Qed.

Lemma batch_results_name_outputs_witness :
  let E := Scenario.posix_no_engine in
  let inputs := [Scenario.report; Scenario.notes] in
  let rs := [ (true, Scenario.report, Path ["out"] "report_compressed.pdf");
              (true, Scenario.notes, Path ["out"] "notes_compressed.pdf") ] in
  let w' := snd (compress_batch E Scenario.plain Scenario.w_batch inputs
                   (Some ["out"])) in
  compress_batch E Scenario.plain Scenario.w_batch inputs (Some ["out"])
  = (Returned rs, w') /\
  (length rs = length inputs
   /\ Forall (fun r : bool * path * path =>
                snd r =
                if fst (fst r)
                then joinpath ["out"] (stem (snd (fst r)) +:+ "_compressed.pdf")
                else snd (fst r)) rs).
Proof.
  cbv zeta.
  assert (H : compress_batch Scenario.posix_no_engine Scenario.plain
                Scenario.w_batch [Scenario.report; Scenario.notes] (Some ["out"])
              = (Returned
                   [ (true, Scenario.report, Path ["out"] "report_compressed.pdf");
                     (true, Scenario.notes, Path ["out"] "notes_compressed.pdf") ],
                 snd (compress_batch Scenario.posix_no_engine Scenario.plain
                        Scenario.w_batch [Scenario.report; Scenario.notes]
                        (Some ["out"]))))
    by (vm_compute; reflexivity).
  split; [exact H|].
  apply (batch_results_name_outputs Scenario.posix_no_engine Scenario.plain
           Scenario.w_batch [Scenario.report; Scenario.notes] (Some ["out"])
           _ _ H).
Defined.

(** ** Output names that coincide *)



(** Two drafts with the same stem compressed into one directory: both jobs
    report success and name the same file, which holds the second job's
    output. *)
Example same_stem_overwrites :
  let b := compress_batch Scenario.posix_ok Scenario.plain Cases.w_drafts
             [Cases.draft_a; Cases.draft_b] (Some ["out"]) in
  fst b = Returned [ (true, Cases.draft_a, Path ["out"] "draft_compressed.pdf");
                     (true, Cases.draft_b, Path ["out"] "draft_compressed.pdf") ]
  /\ size (filter (fun kv => parent (fst kv) = ["out"]) (fs (snd b))) = 1%nat.
Proof. cbv zeta. split; vm_compute; reflexivity. Qed.

(** ** The exit status *)





(** With [--target-size-mb nan] nothing is run. *)
Example nan_target_exits :
  main Scenario.posix_ok Scenario.w_report
    (Args [Scenario.report] None None medium (Some FNan) false)
  = (1, Scenario.w_report).
Proof. reflexivity. Qed.

(** ** The library after a failed engine run *)

(** X15.  Without a target, for an accepted, non-empty input: when the
    engine attempt reports failure, the library is available and its rewrite
    completes, [compress_file] reports success and the file at the output
    path is the one the library wrote -- whatever the failed engine run had
    left there is replaced -- and the library call is the last entry of the
    log. *)
Theorem library_replaces_engine_output E lvl w inp outp f :
  let self := PDFCompressor lvl None in
  let out := resolved_output inp outp in
  let g := compress_with_ghostscript E self w inp out None in
  accepted_input w inp = true ->
  get_file_size w inp <> Some 0%N ->
  fst g = false ->
  PYPDF_AVAILABLE E = true ->
  pdf_library E (calls (snd g)) (fs (snd g)) inp (remove_duplicates lvl)
  = RewriteDone f ->
  compress_file E self w inp outp =
  (Returned (true, out),
   World (<[out := f]> (fs (snd g)))
         (calls (snd g) ++ [PdfRewrite inp out (remove_duplicates lvl)])).
Proof.
  intros self out g Hacc Hsize Hg Hav Hlib.
  rewrite compress_file_cases, Hacc. cbv zeta. fold out.
  unfold try_methods, self. cbn [target_size_bytes]. unfold single_shot.
  fold self g. destruct g as [ok w1]. cbn [fst snd] in *. subst ok.
  rewrite Hav. unfold compress_with_pypdf. cbn [compression_level self].
  rewrite Hlib. cbn [fst snd andb].
  replace (exists_ _ out) with true
    by (symmetry; apply exists_is_Some; cbn [fs]; rewrite lookup_insert_eq; eauto).
  now rewrite (bool_decide_eq_false_2 _ Hsize).
Qed.

Lemma library_replaces_engine_output_witness :
  let E := Cases.engine_crashes_library_ok in
  let w := Scenario.w_report in
  let inp := Scenario.report in
  let f := File 50 true in
  let self := PDFCompressor medium None in
  let out := resolved_output inp None in
  let g := compress_with_ghostscript E self w inp out None in
  accepted_input w inp = true /\
  get_file_size w inp <> Some 0%N /\
  fst g = false /\
  PYPDF_AVAILABLE E = true /\
  pdf_library E (calls (snd g)) (fs (snd g)) inp (remove_duplicates medium)
  = RewriteDone f /\
  compress_file E self w inp None =
  (Returned (true, out),
   World (<[out := f]> (fs (snd g)))
         (calls (snd g) ++ [PdfRewrite inp out (remove_duplicates medium)])).
Proof.
  cbv zeta.
  assert (Hsize : get_file_size Scenario.w_report Scenario.report <> Some 0%N)
    by (vm_compute; discriminate).
  split; [reflexivity|]. split; [exact Hsize|]. split; [reflexivity|].
  split; [reflexivity|]. split; [reflexivity|].
  apply (library_replaces_engine_output Cases.engine_crashes_library_ok medium
           Scenario.w_report Scenario.report None (File 50 true));
    [reflexivity | exact Hsize | reflexivity | reflexivity | reflexivity].
Defined.
